(** * Virtual Gamepad: input bridge, touch surface and parameter resolution

    A shallow embedding of [src/code.js], the "Virtual Gamepad" plugin of an
    RPG Paper Maker game, together with the properties its specification
    states about it.

    The plugin is a single JavaScript module whose state lives in two
    module-level [Map]s ([pointerToKey], [activeRepeats]), in the host's
    [RPM.Common.Inputs.keysPressed] array and in the browser's timer table.
    All of it is threaded explicitly through a [State] record.  Calls into
    the host ([onKeyPressed], ...) are opaque to the module; they are
    recorded in a log, in call order. *)

From Stdlib Require Import ZArith QArith String Ascii List Lia.
From stdpp Require Import base gmap list strings.

Close Scope Q_scope.
Open Scope Z_scope.

(** ** Constants *)

Definition pluginName : string := "Virtual Gamepad".
Definition DPAD_ID : string := "rpm-mobile-dpad".
Definition ABXY_ID : string := "rpm-mobile-abxy".
Definition REPEAT_DELAY : Z := 180.
Definition REPEAT_INTERVAL : Z := 60.

(** ** The input bridge *)

(** The three notification entry points of [RPM.Manager.Stack]. *)
Inductive HostCall : Type :=
  | onKeyPressed (keyCode : Z)
  | onKeyPressedAndRepeat (keyCode : Z)
  | onKeyReleased (keyCode : Z).

(** The two closures [pressKey] hands to the browser, each closed over the
    key code: the body of the [setTimeout] callback and the body of the
    [setInterval] callback. *)
Inductive Callback : Type :=
  | DelayElapsed (keyCode : Z)
  | RepeatTick (keyCode : Z).

Inductive TimerKind : Type := Timeout | Interval.

(** An entry of the browser's list of active timers.  [t_due] is the
    earliest time at which the timer may next fire. *)
Record Timer : Type := mkTimer {
  t_kind : TimerKind;
  t_ms : Z;
  t_due : Z;
  t_cb : Callback
}.

(** A value of [activeRepeats]: [{ delay, interval }], each a timer handle
    or [null]. *)
Record RepeatTimers : Type := mkRepeat {
  delay : option Z;
  interval : option Z
}.

Record State : Type := mkState {
  loaded : bool;                        (* RPM.Main.loaded *)
  isLoading : bool;                     (* RPM.Manager.Stack.isLoading() *)
  keysPressed : list Z;                 (* RPM.Common.Inputs.keysPressed *)
  hostLog : list HostCall;              (* calls made into RPM.Manager.Stack *)
  now : Z;                              (* the browser's clock, in ms *)
  timers : gmap Z Timer;                (* the browser's active timers *)
  nextTimer : Z;                        (* the next timer handle *)
  pointerToKey : gmap Z Z;
  activeRepeats : gmap Z RepeatTimers
}.

#[global] Instance HostCall_eq_dec : EqDecision HostCall.
Proof. solve_decision. Defined.
#[global] Instance Callback_eq_dec : EqDecision Callback.
Proof. solve_decision. Defined.
#[global] Instance TimerKind_eq_dec : EqDecision TimerKind.
Proof. solve_decision. Defined.
#[global] Instance Timer_eq_dec : EqDecision Timer.
Proof. solve_decision. Defined.
#[global] Instance RepeatTimers_eq_dec : EqDecision RepeatTimers.
Proof. solve_decision. Defined.

Definition set_ready (l ld : bool) (s : State) : State :=
  mkState l ld (keysPressed s) (hostLog s) (now s) (timers s) (nextTimer s)
          (pointerToKey s) (activeRepeats s).
Definition set_keysPressed (ks : list Z) (s : State) : State :=
  mkState (loaded s) (isLoading s) ks (hostLog s) (now s) (timers s)
          (nextTimer s) (pointerToKey s) (activeRepeats s).
Definition set_hostLog (lg : list HostCall) (s : State) : State :=
  mkState (loaded s) (isLoading s) (keysPressed s) lg (now s) (timers s)
          (nextTimer s) (pointerToKey s) (activeRepeats s).
Definition set_now (t : Z) (s : State) : State :=
  mkState (loaded s) (isLoading s) (keysPressed s) (hostLog s) t (timers s)
          (nextTimer s) (pointerToKey s) (activeRepeats s).
Definition set_timers (tm : gmap Z Timer) (s : State) : State :=
  mkState (loaded s) (isLoading s) (keysPressed s) (hostLog s) (now s) tm
          (nextTimer s) (pointerToKey s) (activeRepeats s).
Definition set_nextTimer (n : Z) (s : State) : State :=
  mkState (loaded s) (isLoading s) (keysPressed s) (hostLog s) (now s)
          (timers s) n (pointerToKey s) (activeRepeats s).
Definition set_pointerToKey (m : gmap Z Z) (s : State) : State :=
  mkState (loaded s) (isLoading s) (keysPressed s) (hostLog s) (now s)
          (timers s) (nextTimer s) m (activeRepeats s).
Definition set_activeRepeats (m : gmap Z RepeatTimers) (s : State) : State :=
  mkState (loaded s) (isLoading s) (keysPressed s) (hostLog s) (now s)
          (timers s) (nextTimer s) (pointerToKey s) m.

(** The state the module starts in: both maps empty, no timer armed. *)
Definition initial (l ld : bool) (ks : list Z) : State :=
  mkState l ld ks [] 0 ∅ 1 ∅ ∅.

(** *** Array primitives used on [keysPressed]

    Key codes are integers, on which the equality of [includes] and of
    [Map] keys and the strict equality of [indexOf] are the same. *)

Fixpoint includes (l : list Z) (k : Z) : bool :=
  match l with
  | [] => false
  | x :: r => if x =? k then true else includes r k
  end.

(** [Array.prototype.indexOf]: the first index holding [k], or [-1]. *)
Fixpoint indexOf (l : list Z) (k : Z) : Z :=
  match l with
  | [] => -1
  | x :: r =>
      if x =? k then 0
      else let i := indexOf r k in if i =? -1 then -1 else i + 1
  end.

(** [l.splice(i, 1)] for an index [0 <= i]. *)
Definition splice1 (l : list Z) (i : Z) : list Z :=
  take (Z.to_nat i) l ++ drop (S (Z.to_nat i)) l.

Definition push (k : Z) (s : State) : State :=
  set_keysPressed (keysPressed s ++ [k]) s.

Definition notify (c : HostCall) (s : State) : State :=
  set_hostLog (hostLog s ++ [c]) s.

(** *** Browser timers

    [setTimeout] and [setInterval] draw their handles from one counter and
    [clearTimeout] and [clearInterval] remove from one table. *)

Definition setTimeout (cb : Callback) (ms : Z) (s : State) : Z * State :=
  let id := nextTimer s in
  (id, set_nextTimer (id + 1)
         (set_timers (<[id := mkTimer Timeout ms (now s + ms) cb]> (timers s)) s)).

Definition setInterval (cb : Callback) (ms : Z) (s : State) : Z * State :=
  let id := nextTimer s in
  (id, set_nextTimer (id + 1)
         (set_timers (<[id := mkTimer Interval ms (now s + ms) cb]> (timers s)) s)).

Definition clearTimeout (id : Z) (s : State) : State :=
  set_timers (delete id (timers s)) s.

Definition clearInterval (id : Z) (s : State) : State :=
  set_timers (delete id (timers s)) s.

(** *** The bridge proper *)

Definition isReady (s : State) : bool := loaded s && negb (isLoading s).

Definition clearRepeat (keyCode : Z) (s : State) : State :=
  match activeRepeats s !! keyCode with
  | None => s
  | Some repeatTimers =>
      let s1 := match delay repeatTimers with
                | Some d => clearTimeout d s
                | None => s
                end in
      let s2 := match interval repeatTimers with
                | Some i => clearInterval i s1
                | None => s1
                end in
      set_activeRepeats (delete keyCode (activeRepeats s2)) s2
  end.

Definition pressKey (keyCode : Z) (s : State) : State :=
  if negb (isReady s) then s
  else
    let s1 := if negb (includes (keysPressed s) keyCode)
              then notify (onKeyPressed keyCode) (push keyCode s)
              else s in
    let s2 := notify (onKeyPressedAndRepeat keyCode) s1 in
    let s3 := clearRepeat keyCode s2 in
    let '(d, s4) := setTimeout (DelayElapsed keyCode) REPEAT_DELAY s3 in
    set_activeRepeats (<[keyCode := mkRepeat (Some d) None]> (activeRepeats s4)) s4.

Definition releaseKey (keyCode : Z) (s : State) : State :=
  if negb (isReady s) then s
  else
    let s1 := clearRepeat keyCode s in
    let index := indexOf (keysPressed s1) keyCode in
    let s2 := if negb (index =? -1)
              then set_keysPressed (splice1 (keysPressed s1) index) s1
              else s1 in
    notify (onKeyReleased keyCode) s2.

(** The bodies of the two timer callbacks of [pressKey]. *)
Definition runCallback (cb : Callback) (s : State) : State :=
  match cb with
  | DelayElapsed keyCode =>
      let '(i, s1) := setInterval (RepeatTick keyCode) REPEAT_INTERVAL s in
      set_activeRepeats (<[keyCode := mkRepeat None (Some i)]> (activeRepeats s1)) s1
  | RepeatTick keyCode =>
      if isReady s && includes (keysPressed s) keyCode
      then notify (onKeyPressedAndRepeat keyCode) s
      else s
  end.

(** The browser runs a timer that has come due: a timeout leaves the table
    before its callback runs, an interval is scheduled again. *)
Definition fireTimer (id : Z) (s : State) : State :=
  match timers s !! id with
  | None => s
  | Some t =>
      if t_due t <=? now s then
        match t_kind t with
        | Timeout => runCallback (t_cb t) (set_timers (delete id (timers s)) s)
        | Interval =>
            runCallback (t_cb t)
              (set_timers (<[id := mkTimer Interval (t_ms t) (now s + t_ms t) (t_cb t)]>
                             (timers s)) s)
        end
      else s
  end.

(** *** Pointer handlers of a touch button bound to [keyCode] *)

(** [preventDefault] and [setPointerCapture] act on the browser only: with
    the pointer captured, its later events are targeted at the button. *)
Definition handlePointerDown (keyCode : Z) (pointerId : Z) (s : State) : State :=
  pressKey keyCode (set_pointerToKey (<[pointerId := keyCode]> (pointerToKey s)) s).

(** Registered for [pointerup], [pointercancel] and [lostpointercapture]. *)
Definition handlePointerUp (pointerId : Z) (s : State) : State :=
  match pointerToKey s !! pointerId with
  | None => s
  | Some activeKeyCode =>
      releaseKey activeKeyCode (set_pointerToKey (delete pointerId (pointerToKey s)) s)
  end.

(** The listener [installGlobalPointerListener] adds to the document. *)
Definition documentPointerUp (pointerId : Z) (s : State) : State :=
  match pointerToKey s !! pointerId with
  | Some keyCode =>
      releaseKey keyCode (set_pointerToKey (delete pointerId (pointerToKey s)) s)
  | None => s
  end.

(** A [pointerup] event for [pointerId]: when its target is a touch button
    the button's listener runs first, then the event bubbles to the
    document, where each of the [listeners] installed so far runs. *)
Definition dispatchPointerUp (onButton : bool) (listeners : nat) (pointerId : Z)
    (s : State) : State :=
  Nat.iter listeners (documentPointerUp pointerId)
    (if onButton then handlePointerUp pointerId s else s).

(** *** Everything that can happen to the bridge *)

Inductive Action : Type :=
  | Press (keyCode : Z)
  | Release (keyCode : Z)
  | Fire (id : Z)
  | Elapse (ms : Z)
  | HostReady (l ld : bool)
  | HostKeyDown (keyCode : Z)
  | HostKeyUp (keyCode : Z)
  | PointerDown (keyCode pointerId : Z)
  | PointerUp (onButton : bool) (listeners : nat) (pointerId : Z)
  | PointerCancel (pointerId : Z)
  | LostPointerCapture (pointerId : Z).

(** The host's own keyboard handlers keep [keysPressed] duplicate free. *)
Definition hostKeyDown (k : Z) (s : State) : State :=
  if includes (keysPressed s) k then s else push k s.

Definition hostKeyUp (k : Z) (s : State) : State :=
  let index := indexOf (keysPressed s) k in
  if negb (index =? -1) then set_keysPressed (splice1 (keysPressed s) index) s else s.

Definition step (a : Action) (s : State) : State :=
  match a with
  | Press k => pressKey k s
  | Release k => releaseKey k s
  | Fire id => fireTimer id s
  | Elapse ms => set_now (now s + Z.max 0 ms) s
  | HostReady l ld => set_ready l ld s
  | HostKeyDown k => hostKeyDown k s
  | HostKeyUp k => hostKeyUp k s
  | PointerDown k p => handlePointerDown k p s
  | PointerUp b n p => dispatchPointerUp b n p s
  | PointerCancel p => handlePointerUp p s
  | LostPointerCapture p => handlePointerUp p s
  end.

Definition run (l : list Action) (s : State) : State :=
  foldl (fun s a => step a s) s l.

(** The key code whose press an action ends, if any: an explicit release,
    or a pointer event of a tracked pointer that reaches one of the module's
    listeners. *)
Definition endsPress (a : Action) (s : State) : option Z :=
  match a with
  | Release k => Some k
  | PointerCancel p => pointerToKey s !! p
  | LostPointerCapture p => pointerToKey s !! p
  | PointerUp b n p => if b || (0 <? n)%nat then pointerToKey s !! p else None
  | _ => None
  end.

(** The host calls made between two states, the log being append-only. *)
Definition callsSince (s s' : State) : list HostCall :=
  drop (length (hostLog s)) (hostLog s').

Definition callbackKey (cb : Callback) : Z :=
  match cb with DelayElapsed k => k | RepeatTick k => k end.

(** The timers registered for key code [k]. *)
Definition timersFor (k : Z) (s : State) : gmap Z Timer :=
  filter (fun p => callbackKey (t_cb p.2) = k) (timers s).

(** What holds of every state the module can be in: [keysPressed] has no
    duplicate, timer handles are below the counter, and every registered
    timer is the one its key's [activeRepeats] entry refers to. *)
Record Inv (s : State) : Prop := mkInv {
  inv_nodup : NoDup (keysPressed s);
  inv_fresh : forall id t, timers s !! id = Some t -> id < nextTimer s;
  inv_delay : forall id t k,
      timers s !! id = Some t -> t_cb t = DelayElapsed k ->
      t_kind t = Timeout /\ activeRepeats s !! k = Some (mkRepeat (Some id) None);
  inv_tick : forall id t k,
      timers s !! id = Some t -> t_cb t = RepeatTick k ->
      t_kind t = Interval /\ activeRepeats s !! k = Some (mkRepeat None (Some id))
}.

(** ** JavaScript values

    Plugin parameters and key bindings are data handed over by the host.  A
    number is NaN, an infinity, or a finite value, kept here as the exact
    rational it denotes (no rounding to a double, no negative zero).  An
    object carries the string its default conversion to a primitive gives,
    which is all [Number] looks at. *)

Inductive JsNumber : Type :=
  | NaN
  | Infinity (negative : bool)
  | Finite (q : Q).

Inductive JsValue : Type :=
  | JUndefined
  | JNull
  | JBool (b : bool)
  | JNum (n : JsNumber)
  | JStr (s : string)
  | JObj (primitive : string).

Definition num (z : Z) : JsValue := JNum (Finite (inject_Z z)).

(** [Number.isFinite] on a number. *)
Definition isFinite (n : JsNumber) : bool :=
  match n with Finite _ => true | _ => false end.

(** *** [StringToNumber] *)

Definition isWhiteSpace (c : ascii) : bool :=
  match nat_of_ascii c with
  | 9%nat | 10%nat | 11%nat | 12%nat | 13%nat | 32%nat => true
  | _ => false
  end.

Fixpoint trimStart (s : string) : string :=
  match s with
  | String c r => if isWhiteSpace c then trimStart r else s
  | EmptyString => EmptyString
  end.

Fixpoint trimEnd (s : string) : string :=
  match s with
  | String c r =>
      match trimEnd r with
      | EmptyString => if isWhiteSpace c then EmptyString else String c EmptyString
      | r' => String c r'
      end
  | EmptyString => EmptyString
  end.

Definition trim (s : string) : string := trimEnd (trimStart s).

(** The value of a digit in the given radix. *)
Definition digitValue (radix : Z) (c : ascii) : option Z :=
  let n := Z.of_nat (nat_of_ascii c) in
  let v := if (48 <=? n) && (n <=? 57) then n - 48
           else if (97 <=? n) && (n <=? 102) then n - 87
           else if (65 <=? n) && (n <=? 70) then n - 55
           else radix in
  if v <? radix then Some v else None.

(** Reads the longest prefix of digits: its value, its length, the rest. *)
Fixpoint readDigits (radix : Z) (s : string) (acc : Z) (len : nat) : Z * nat * string :=
  match s with
  | String c r =>
      match digitValue radix c with
      | Some v => readDigits radix r (acc * radix + v) (S len)
      | None => (acc, len, s)
      end
  | EmptyString => (acc, len, s)
  end.

(** Values of magnitude at least [2^1024 - 2^970] round to an infinity. *)
Definition overflowsAt : Z := 2 ^ 1024 - 2 ^ 970.

(** The number denoted by [mantissa * 10 ^ exponent]. *)
Definition scientific (negative : bool) (mantissa exponent : Z) : JsNumber :=
  let q := if 0 <=? exponent
           then inject_Z (mantissa * 10 ^ exponent)
           else Qmake mantissa (Z.to_pos (10 ^ (- exponent))) in
  if Qle_bool (inject_Z overflowsAt) q then Infinity negative
  else Finite (Qred (if negative then Qopp q else q)).

(** [ExponentPart], optional: [e] or [E], an optional sign, digits. *)
Definition readExponent (s : string) : option Z :=
  match s with
  | EmptyString => Some 0
  | String c r =>
      if (Ascii.eqb c "e" || Ascii.eqb c "E")%bool then
        let '(negative, r1) :=
          match r with
          | String "-" r' => (true, r')
          | String "+" r' => (false, r')
          | _ => (false, r)
          end in
        match readDigits 10 r1 0 0 with
        | (_, O, _) => None
        | (e, _, EmptyString) => Some (if negative then - e else e)
        | _ => None
        end
      else None
  end.

(** [StrUnsignedDecimalLiteral]: [Infinity], or digits with an optional
    fraction and exponent, at least one digit before the exponent. *)
Definition StrUnsignedDecimalLiteral (negative : bool) (s : string) : JsNumber :=
  if String.eqb s "Infinity" then Infinity negative
  else
    let '(ip, n1, r1) := readDigits 10 s 0 0 in
    let '(m, n2, r2) :=
      match r1 with
      | String "." r => readDigits 10 r ip 0
      | _ => (ip, O, r1)
      end in
    match (n1 + n2)%nat, readExponent r2 with
    | S _, Some e => scientific negative m (e - Z.of_nat n2)
    | _, _ => NaN
    end.

(** [NonDecimalIntegerLiteral]: digits after [0x], [0o] or [0b]. *)
Definition nonDecimal (radix : Z) (s : string) : JsNumber :=
  match readDigits radix s 0 0 with
  | (_, O, _) => NaN
  | (v, _, EmptyString) => scientific false v 0
  | _ => NaN
  end.

Definition StringToNumber (s : string) : JsNumber :=
  match trim s with
  | EmptyString => Finite (inject_Z 0)
  | String "+" r => StrUnsignedDecimalLiteral false r
  | String "-" r => StrUnsignedDecimalLiteral true r
  | String "0" (String "x" r) => nonDecimal 16 r
  | String "0" (String "X" r) => nonDecimal 16 r
  | String "0" (String "o" r) => nonDecimal 8 r
  | String "0" (String "O" r) => nonDecimal 8 r
  | String "0" (String "b" r) => nonDecimal 2 r
  | String "0" (String "B" r) => nonDecimal 2 r
  | t => StrUnsignedDecimalLiteral false t
  end.

(** [Number(value)]. *)
Definition Number (value : JsValue) : JsNumber :=
  match value with
  | JUndefined => NaN
  | JNull => Finite (inject_Z 0)
  | JBool b => Finite (inject_Z (if b then 1 else 0))
  | JNum n => n
  | JStr s => StringToNumber s
  | JObj primitive => StringToNumber primitive
  end.

(** Truthiness, as [!value] and [value ? _ : _] test it. *)
Definition ToBoolean (value : JsValue) : bool :=
  match value with
  | JUndefined | JNull => false
  | JBool b => b
  | JNum NaN => false
  | JNum (Infinity _) => true
  | JNum (Finite q) => negb (Qeq_bool q (inject_Z 0))
  | JStr s => negb (String.eqb s EmptyString)
  | JObj _ => true
  end.

(** [a ?? b]. *)
Definition nullish (a b : JsValue) : JsValue :=
  match a with
  | JUndefined | JNull => b
  | _ => a
  end.

(** *** Completions: a call returns a value or throws *)

Inductive Completion (A : Type) : Type :=
  | Normal (a : A)
  | Throw (e : JsValue).
Arguments Normal {A} a.
Arguments Throw {A} e.

(** Sequencing: a throw skips the rest. *)
#[global] Instance Completion_bind : MBind Completion :=
  fun A B (f : A -> Completion B) (c : Completion A) =>
    match c with
    | Normal a => f a
    | Throw e => Throw e
    end.

(** [try { body } catch (_) { handler }]. *)
Definition tryCatch {A : Type} (body : Completion A) (handler : JsValue -> Completion A)
    : Completion A :=
  match body with
  | Normal a => Normal a
  | Throw e => handler e
  end.

(** ** Parameter resolution *)

(** A key binding of the host: [sc] lists its shortcuts, each a list of key
    codes; [None] where the property is absent. *)
Record Keyboard : Type := mkKeyboard {
  sc : option (list (list JsValue))
}.

(** What the module reads from the host at load time. *)
Record Host : Type := mkHost {
  getParameter : string -> string -> Completion JsValue;
  controls : string -> option Keyboard;
  menuControls : string -> option Keyboard
}.

(** [binding ? binding.sc?.[0]?.[0] ?? hard : hard]. *)
Definition fallbackKeyCode (binding : option Keyboard) (hard : Z) : JsValue :=
  match binding with
  | Some kb =>
      nullish (match sc kb with
               | Some ((v :: _) :: _) => v
               | _ => JUndefined
               end) (num hard)
  | None => num hard
  end.

Definition resolveKeyCode (h : Host) (parameterName : string) (fallback : JsValue)
    : Completion JsValue :=
  tryCatch
    (value ← getParameter h pluginName parameterName;
     let numericValue := Number value in
     Normal (if isFinite numericValue then JNum numericValue else fallback))
    (fun _ => Normal fallback).

(** The shape of the [KEY_CODES] object. *)
Module KeyCodes.

Record t : Type := mk {
  up : JsValue;
  down : JsValue;
  left : JsValue;
  right : JsValue;
  action : JsValue;
  cancel : JsValue;
  buttonX : JsValue;
  buttonY : JsValue
}.

End KeyCodes.

Definition KEY_CODES (h : Host) : Completion KeyCodes.t :=
  up ← resolveKeyCode h "MoveUpKeyCode" (fallbackKeyCode (controls h "UpHero") 87);
  down ← resolveKeyCode h "MoveDownKeyCode" (fallbackKeyCode (controls h "DownHero") 83);
  left ← resolveKeyCode h "MoveLeftKeyCode" (fallbackKeyCode (controls h "LeftHero") 65);
  right ← resolveKeyCode h "MoveRightKeyCode" (fallbackKeyCode (controls h "RightHero") 68);
  action ← resolveKeyCode h "ActionKeyCode" (fallbackKeyCode (menuControls h "Action") 13);
  cancel ← resolveKeyCode h "CancelKeyCode" (fallbackKeyCode (menuControls h "Cancel") 27);
  buttonX ← resolveKeyCode h "ButtonXKeyCode" (fallbackKeyCode (menuControls h "ButtonX") 13);
  buttonY ← resolveKeyCode h "ButtonYKeyCode" (fallbackKeyCode (menuControls h "ButtonY") 27);
  Normal (KeyCodes.mk up down left right action cancel buttonX buttonY).

(** The reads at the top level of the module, in source order: the initial
    value of [showGamepad], then the [KEY_CODES] table. *)
Definition loadConfig (h : Host) : Completion (JsValue * KeyCodes.t) :=
  showGamepad ← getParameter h pluginName "Show Gamepad";
  keyCodes ← KEY_CODES h;
  Normal (showGamepad, keyCodes).

(** *** Hosts to run the resolution on *)

(** A host whose plugin registry fails on every read. *)
Definition throwingHost : Host :=
  mkHost (fun _ _ => Throw (JStr "TypeError")) (fun _ => None) (fun _ => None).

(** A host that knows none of the parameters and binds "UpHero" to key 38. *)
Definition reboundHost : Host :=
  mkHost (fun _ _ => Normal JUndefined)
         (fun name => if String.eqb name "UpHero"
                      then Some (mkKeyboard (Some [[num 38]; [num 87]]))
                      else None)
         (fun _ => None).

(** A host with one parameter of each kind. *)
Definition sampleHost : Host :=
  mkHost (fun _ name =>
            if String.eqb name "Show Gamepad" then Normal (JBool true)
            else if String.eqb name "MoveUpKeyCode" then Normal (JStr "38")
            else if String.eqb name "MoveDownKeyCode" then Normal JNull
            else if String.eqb name "MoveLeftKeyCode" then Normal (JStr EmptyString)
            else if String.eqb name "MoveRightKeyCode" then Normal (JBool false)
            else if String.eqb name "ActionKeyCode" then Normal (JStr "enter")
            else if String.eqb name "CancelKeyCode" then Normal (JNum (Infinity false))
            else if String.eqb name "ButtonXKeyCode" then Throw (JStr "TypeError")
            else Normal JUndefined)
         (fun _ => None) (fun _ => None).

(** ** The touch surface

    The part of the document the module builds and looks at: elements with
    a tag, an [id] (empty when unset), their properties (attributes,
    [dataset] and [style] entries, by name), their event listeners and
    their children.  The document is given by its [body]. *)

(** The two listeners of [createTouchButton], the first closed over the
    button's key code. *)
Inductive Handler : Type :=
  | HandlePointerDown (keyCode : JsValue)
  | HandlePointerUp.

#[local] Unset Elimination Schemes.
Inductive Element : Type :=
  mkElement (tagName : string) (id : string) (props : list (string * string))
            (listeners : list (string * Handler)) (children : list Element).
#[local] Set Elimination Schemes.

Definition createElement (tagName : string) : Element := mkElement tagName EmptyString [] [] [].

Definition setId (i : string) (e : Element) : Element :=
  match e with mkElement t _ p l c => mkElement t i p l c end.

Definition setProp (name value : string) (e : Element) : Element :=
  match e with mkElement t i p l c => mkElement t i (p ++ [(name, value)]) l c end.

Definition addEventListener (type : string) (h : Handler) (e : Element) : Element :=
  match e with mkElement t i p l c => mkElement t i p (l ++ [(type, h)]) c end.

Definition appendChild (child : Element) (e : Element) : Element :=
  match e with mkElement t i p l c => mkElement t i p l (c ++ [child]) end.

(** [document.getElementById]: the first element, in tree order, with the
    given id. *)
Fixpoint getElementById (i : string) (e : Element) : option Element :=
  match e with
  | mkElement _ i' _ _ c =>
      if String.eqb i' i then Some e
      else (fix search (l : list Element) : option Element :=
              match l with
              | [] => None
              | x :: r =>
                  match getElementById i x with
                  | Some found => Some found
                  | None => search r
                  end
              end) c
  end.

(** The number of elements carrying the given id. *)
Fixpoint countId (i : string) (e : Element) : nat :=
  match e with
  | mkElement _ i' _ _ c =>
      ((if String.eqb i' i then 1 else 0) +
       (fix total (l : list Element) : nat :=
          match l with
          | [] => 0
          | x :: r => countId i x + total r
          end) c)%nat
  end.

(** The number of elements of a tree. *)
Fixpoint countNodes (e : Element) : nat :=
  match e with
  | mkElement _ _ _ _ c =>
      S ((fix total (l : list Element) : nat :=
            match l with
            | [] => 0
            | x :: r => countNodes x + total r
            end) c)%nat
  end.

(** The reference [assetURL] resolves against the module's own URL. *)
Definition assetURL (relativePath : string) : string :=
  String.append "./assets/" relativePath.

Record ButtonConfig : Type := mkButton {
  b_id : string;
  b_label : string;
  b_keyCode : JsValue;
  b_imageFile : string;
  b_gridArea : string
}.

Definition createTouchButton (config : ButtonConfig) : Element :=
  let button := createElement "button" in
  let button := setProp "type" "button" button in
  let button := setProp "dataset.button" (b_id config) button in
  let button := setProp "style.gridArea" (b_gridArea config) button in
  let button := setProp "style.background" "transparent" button in
  let button := setProp "style.border" "none" button in
  let button := setProp "style.padding" "0" button in
  let button := setProp "style.margin" "0" button in
  let button := setProp "style.touchAction" "none" button in
  let button := setProp "style.pointerEvents" "auto" button in
  let button := setProp "style.display" "flex" button in
  let button := setProp "style.alignItems" "center" button in
  let button := setProp "style.justifyContent" "center" button in
  let img := createElement "img" in
  let img := setProp "alt" (b_label config) img in
  let img := setProp "src" (assetURL (b_imageFile config)) img in
  let img := setProp "style.maxWidth" "100%" img in
  let img := setProp "style.pointerEvents" "none" img in
  let button := appendChild img button in
  let button := addEventListener "pointerdown" (HandlePointerDown (b_keyCode config)) button in
  let button := addEventListener "pointerup" HandlePointerUp button in
  let button := addEventListener "pointercancel" HandlePointerUp button in
  let button := addEventListener "lostpointercapture" HandlePointerUp button in
  button.

(** The container both clusters start from; [side] is ["left"] or
    ["right"]. *)
Definition createContainer (i side : string) : Element :=
  let container := createElement "div" in
  let container := setId i container in
  let container := setProp "style.position" "fixed" container in
  let container := setProp (String.append "style." side) "4vw" container in
  let container := setProp "style.bottom" "14vh" container in
  let container := setProp "style.width" "180px" container in
  let container := setProp "style.height" "180px" container in
  let container := setProp "style.display" "grid" container in
  let container := setProp "style.gridTemplateColumns" "repeat(3, 1fr)" container in
  let container := setProp "style.gridTemplateRows" "repeat(3, 1fr)" container in
  let container := setProp "style.alignItems" "center" container in
  let container := setProp "style.justifyItems" "center" container in
  let container := setProp "style.pointerEvents" "auto" container in
  let container := setProp "style.touchAction" "none" container in
  let container := setProp "style.zIndex" "9999" container in
  let container := setProp "style.userSelect" "none" container in
  container.

Definition dpadButtons (kc : KeyCodes.t) : list ButtonConfig :=
  [ mkButton "dpad-up" "Move Up" (KeyCodes.up kc) "dpad_element_north.png" "1 / 2 / 2 / 3";
    mkButton "dpad-left" "Move Left" (KeyCodes.left kc) "dpad_element_west.png" "2 / 1 / 3 / 2";
    mkButton "dpad-right" "Move Right" (KeyCodes.right kc) "dpad_element_east.png" "2 / 3 / 3 / 4";
    mkButton "dpad-down" "Move Down" (KeyCodes.down kc) "dpad_element_south.png" "3 / 2 / 4 / 3" ].

Definition abxyButtons (kc : KeyCodes.t) : list ButtonConfig :=
  [ mkButton "button-y" "Cancel (Y)" (KeyCodes.buttonY kc) "icon_button_y.png" "1 / 2 / 2 / 3";
    mkButton "button-x" "Action (X)" (KeyCodes.buttonX kc) "icon_button_x.png" "2 / 1 / 3 / 2";
    mkButton "button-b" "Cancel (B)" (KeyCodes.cancel kc) "icon_button_b.png" "2 / 3 / 3 / 4";
    mkButton "button-a" "Action (A)" (KeyCodes.action kc) "icon_button_a.png" "3 / 2 / 4 / 3" ].

(** [buttons.forEach(config => container.appendChild(createTouchButton(config)))]. *)
Definition appendButtons (buttons : list ButtonConfig) (container : Element) : Element :=
  foldl (fun container config => appendChild (createTouchButton config) container)
        container buttons.

Definition mountDPad (kc : KeyCodes.t) (body : Element) : Element :=
  match getElementById DPAD_ID body with
  | Some _ => body
  | None => appendChild (appendButtons (dpadButtons kc) (createContainer DPAD_ID "left")) body
  end.

Definition mountABXY (kc : KeyCodes.t) (body : Element) : Element :=
  match getElementById ABXY_ID body with
  | Some _ => body
  | None => appendChild (appendButtons (abxyButtons kc) (createContainer ABXY_ID "right")) body
  end.

(** The page as the module sees it: the document's body, the number of
    [pointerup] listeners it has added to the document, and the
    [showGamepad] variable. *)
Record Page : Type := mkPage {
  documentBody : Element;
  documentListeners : nat;
  showGamepad : JsValue
}.

Definition installGlobalPointerListener (pg : Page) : Page :=
  mkPage (documentBody pg) (S (documentListeners pg)) (showGamepad pg).

Definition activateMobileControls (kc : KeyCodes.t) (pg : Page) : Page :=
  if negb (ToBoolean (showGamepad pg)) then pg
  else
    let pg := mkPage (mountDPad kc (documentBody pg)) (documentListeners pg) (showGamepad pg) in
    let pg := mkPage (mountABXY kc (documentBody pg)) (documentListeners pg) (showGamepad pg) in
    installGlobalPointerListener pg.

(** The "Toggle Gamepad View" command. *)
Definition toggleGamepadView (kc : KeyCodes.t) (pg : Page) : Page :=
  activateMobileControls kc
    (mkPage (documentBody pg) (documentListeners pg)
            (JBool (negb (ToBoolean (showGamepad pg))))).

Definition countIdList (i : string) (l : list Element) : nat :=
  list_sum (map (countId i) l).

Definition countNodesList (l : list Element) : nat :=
  list_sum (map countNodes l).

(** ** Further notions used in the properties below *)

(** The two maps agree the other way round as well: every entry of
    [activeRepeats] holds one handle, of a registered timer of its own key,
    and the module's timers have the periods of the two constants. *)
Record Live (s : State) : Prop := mkLive {
  live_entry : forall k rt,
      activeRepeats s !! k = Some rt ->
      exists id t, timers s !! id = Some t /\
        ((rt = mkRepeat (Some id) None /\ t_cb t = DelayElapsed k) \/
         (rt = mkRepeat None (Some id) /\ t_cb t = RepeatTick k));
  live_period : forall id t,
      timers s !! id = Some t ->
      t_ms t = match t_cb t with
               | DelayElapsed _ => REPEAT_DELAY
               | RepeatTick _ => REPEAT_INTERVAL
               end
}.

Definition Good (s : State) : Prop := Inv s /\ Live s.

(** Whether an action presses key code [k]. *)
Definition pressesKey (k : Z) (a : Action) : bool :=
  match a with
  | Press k' => k' =? k
  | PointerDown k' _ => k' =? k
  | _ => false
  end.

(** The browser firing interval [id] [n] times, [ms] apart. *)
Fixpoint ticks (n : nat) (ms id : Z) : list Action :=
  match n with
  | O => []
  | S m => Elapse ms :: Fire id :: ticks m ms id
  end.

(** [keysPressed] without the first occurrence of [k]. *)
Fixpoint removeFirst (k : Z) (l : list Z) : list Z :=
  match l with
  | [] => []
  | x :: r => if x =? k then r else x :: removeFirst k r
  end.

(** The key codes the [pointerdown] listeners of a tree are bound to, in
    tree order. *)
Fixpoint pointerDownKeys (e : Element) : list JsValue :=
  match e with
  | mkElement _ _ _ l c =>
      omap (fun p => match p with
                     | (_, HandlePointerDown keyCode) => Some keyCode
                     | _ => None
                     end) l ++
      (fix all (cs : list Element) : list JsValue :=
         match cs with
         | [] => []
         | x :: r => pointerDownKeys x ++ all r
         end) c
  end.

Definition pointerDownKeysList (l : list Element) : list JsValue :=
  concat (map pointerDownKeys l).

Definition isDown (h : Handler) : bool :=
  match h with HandlePointerDown _ => true | HandlePointerUp => false end.

Definition isUp (h : Handler) : bool :=
  match h with HandlePointerUp => true | HandlePointerDown _ => false end.

(** Whether a listener of the given kind is registered for the event type. *)
Definition hasListener (type : string) (kind : Handler -> bool)
    (l : list (string * Handler)) : bool :=
  existsb (fun p => String.eqb (fst p) type && kind (snd p)) l.

(** An element that listens for [pointerdown] also has the release handler
    on [pointerup], [pointercancel] and [lostpointercapture]. *)
Definition cleansUp (l : list (string * Handler)) : bool :=
  if hasListener "pointerdown" isDown l
  then hasListener "pointerup" isUp l && hasListener "pointercancel" isUp l
       && hasListener "lostpointercapture" isUp l
  else true.

Fixpoint cleanupWired (e : Element) : bool :=
  match e with
  | mkElement _ _ _ l c =>
      cleansUp l &&
      (fix all (cs : list Element) : bool :=
         match cs with
         | [] => true
         | x :: r => cleanupWired x && all r
         end) c
  end.

Definition isNullish (v : JsValue) : bool :=
  match v with
  | JUndefined | JNull => true
  | _ => false
  end.

(** A value that is a finite number. *)
Definition isFiniteNumber (v : JsValue) : bool :=
  match v with
  | JNum n => isFinite n
  | _ => false
  end.

(** The eight entries of a [KEY_CODES] table. *)
Definition keyCodeList (kc : KeyCodes.t) : list JsValue :=
  [ KeyCodes.up kc; KeyCodes.down kc; KeyCodes.left kc; KeyCodes.right kc;
    KeyCodes.action kc; KeyCodes.cancel kc; KeyCodes.buttonX kc; KeyCodes.buttonY kc ].

(** The fallbacks [KEY_CODES] passes to [resolveKeyCode], in the same order. *)
Definition fallbackList (h : Host) : list JsValue :=
  [ fallbackKeyCode (controls h "UpHero") 87;
    fallbackKeyCode (controls h "DownHero") 83;
    fallbackKeyCode (controls h "LeftHero") 65;
    fallbackKeyCode (controls h "RightHero") 68;
    fallbackKeyCode (menuControls h "Action") 13;
    fallbackKeyCode (menuControls h "Cancel") 27;
    fallbackKeyCode (menuControls h "ButtonX") 13;
    fallbackKeyCode (menuControls h "ButtonY") 27 ].

(** From [s] to [s'] the host log only grew, without a repeat of [k], and
    [s'] has no timer for [k]. *)
Definition Quiet (k : Z) (s s' : State) : Prop :=
  timersFor k s' = ∅ /\
  exists calls, hostLog s' = hostLog s ++ calls /\ onKeyPressedAndRepeat k ∉ calls.

(** * Properties *)

(** ** Arrays *)

Lemma includes_elem_of (l : list Z) (k : Z) : includes l k = true <-> k ∈ l.
Proof.
  induction l as [|x r IH]; simpl.
  - split; [discriminate | intros H; inversion H].
  - destruct (Z.eqb_spec x k) as [->|Hne].
    + split; [intros _; left | reflexivity].
    + rewrite IH. split; [intros Hk; by right|].
      intros Hk. apply elem_of_cons in Hk as [Hk|Hk]; [congruence | done].
Qed.

Lemma includes_false (l : list Z) (k : Z) : includes l k = false <-> k ∉ l.
Proof.
  rewrite <- includes_elem_of. destruct (includes l k); split; congruence.
Qed.

Lemma indexOf_range (l : list Z) (k : Z) : -1 <= indexOf l k < Z.of_nat (length l).
Proof.
  induction l as [|x r IH]; simpl; [lia|].
  destruct (x =? k); [lia|].
  destruct (Z.eqb_spec (indexOf r k) (-1)); lia.
Qed.

Lemma indexOf_absent (l : list Z) (k : Z) : indexOf l k = -1 <-> k ∉ l.
Proof.
  induction l as [|x r IH]; simpl.
  - split; [intros _ H; inversion H | reflexivity].
  - rewrite not_elem_of_cons. destruct (Z.eqb_spec x k) as [->|Hne].
    + split; [discriminate | intros [H _]; congruence].
    + pose proof (indexOf_range r k) as Hr.
      destruct (Z.eqb_spec (indexOf r k) (-1)) as [He|He].
      * split; [intros _; split; [congruence | by apply IH] | reflexivity].
      * split; [lia | intros [_ Hk]; apply IH in Hk; congruence].
Qed.

(** Removing at [indexOf] removes the first occurrence. *)
Lemma splice1_indexOf_cons (x : Z) (r : list Z) (k : Z) :
  splice1 (x :: r) (indexOf (x :: r) k) =
  if x =? k then r
  else if indexOf r k =? -1 then splice1 (x :: r) (-1)
  else x :: splice1 r (indexOf r k).
Proof.
  simpl. destruct (x =? k); [unfold splice1; simpl; by rewrite drop_0|].
  pose proof (indexOf_range r k).
  destruct (Z.eqb_spec (indexOf r k) (-1)) as [He|He]; [done|].
  unfold splice1. replace (Z.to_nat (indexOf r k + 1)) with (S (Z.to_nat (indexOf r k))) by lia.
  done.
Qed.

Lemma splice1_indexOf_count (l : list Z) (k y : Z) :
  indexOf l k ≠ -1 ->
  count_occ Z.eq_dec l y =
  (count_occ Z.eq_dec (splice1 l (indexOf l k)) y + if decide (y = k) then 1 else 0)%nat.
Proof.
  induction l as [|x r IH]; [done|].
  intros Hi. rewrite splice1_indexOf_cons. simpl in Hi.
  destruct (Z.eqb_spec x k) as [->|Hne].
  - simpl. destruct (Z.eq_dec k y), (decide (y = k)); subst; try congruence; lia.
  - destruct (Z.eqb_spec (indexOf r k) (-1)) as [He|He]; [done|].
    simpl. rewrite (IH He).
    destruct (Z.eq_dec x y), (decide (y = k)); subst; try congruence; lia.
Qed.

Lemma NoDup_count_occ_le (l : list Z) (y : Z) :
  NoDup l -> (count_occ Z.eq_dec l y <= 1)%nat.
Proof.
  intros H. apply NoDup_ListNoDup in H.
  by apply (proj1 (NoDup_count_occ Z.eq_dec l)).
Qed.

Lemma count_occ_zero_not_elem (l : list Z) (y : Z) :
  count_occ Z.eq_dec l y = 0%nat <-> y ∉ l.
Proof.
  rewrite list_elem_of_In. symmetry. apply count_occ_not_In.
Qed.

Lemma splice1_indexOf_gone (l : list Z) (k : Z) :
  NoDup l -> k ∉ splice1 l (indexOf l k) \/ indexOf l k = -1.
Proof.
  intros Hnd. destruct (decide (indexOf l k = -1)) as [|Hi]; [by right|left].
  apply count_occ_zero_not_elem.
  pose proof (splice1_indexOf_count l k k Hi) as Hc.
  pose proof (NoDup_count_occ_le l k Hnd). rewrite decide_True in Hc; [lia|done].
Qed.

Lemma splice1_indexOf_NoDup (l : list Z) (k : Z) :
  NoDup l -> NoDup (splice1 l (indexOf l k)).
Proof.
  intros Hnd. destruct (decide (indexOf l k = -1)) as [Hi|Hi].
  - rewrite Hi. unfold splice1. simpl.
    destruct l as [|x r]; [done|]. simpl. rewrite drop_0. by apply NoDup_cons in Hnd as [_ ?].
  - apply NoDup_ListNoDup, (NoDup_count_occ Z.eq_dec). intros y.
    pose proof (splice1_indexOf_count l k y Hi).
    pose proof (NoDup_count_occ_le l y Hnd). lia.
Qed.

(** ** What [clearRepeat] touches *)

Lemma clearRepeat_frame (k : Z) (s : State) :
  loaded (clearRepeat k s) = loaded s /\
  isLoading (clearRepeat k s) = isLoading s /\
  keysPressed (clearRepeat k s) = keysPressed s /\
  hostLog (clearRepeat k s) = hostLog s /\
  now (clearRepeat k s) = now s /\
  nextTimer (clearRepeat k s) = nextTimer s /\
  pointerToKey (clearRepeat k s) = pointerToKey s.
Proof.
  unfold clearRepeat. destruct (activeRepeats s !! k) as [[[d|] [i|]]|]; simpl; tauto.
Qed.

Lemma clearRepeat_isReady (k : Z) (s : State) : isReady (clearRepeat k s) = isReady s.
Proof.
  unfold isReady. destruct (clearRepeat_frame k s) as (-> & -> & _). reflexivity.
Qed.

Lemma clearRepeat_activeRepeats (k : Z) (s : State) :
  activeRepeats (clearRepeat k s) = delete k (activeRepeats s).
Proof.
  unfold clearRepeat. destruct (activeRepeats s !! k) as [[[d|] [i|]]|] eqn:E; simpl; try done.
  symmetry. by apply delete_id.
Qed.

(** A timer survives [clearRepeat k] only if it was registered before and is
    neither of the two handles of [k]'s entry. *)
Lemma clearRepeat_timers_Some (k : Z) (s : State) (id : Z) (t : Timer) :
  timers (clearRepeat k s) !! id = Some t <->
  timers s !! id = Some t /\
  forall rt, activeRepeats s !! k = Some rt -> delay rt ≠ Some id /\ interval rt ≠ Some id.
Proof.
  unfold clearRepeat. destruct (activeRepeats s !! k) as [[[d|] [i|]]|] eqn:E; simpl.
  - rewrite !lookup_delete_Some. split.
    + intros (Hi & Hd & Ht). split; [done|]. intros rt [= <-]. simpl. split; congruence.
    + intros (Ht & Hrt). destruct (Hrt _ eq_refl) as [Hd Hi]. simpl in *.
      repeat split; try done; congruence.
  - rewrite lookup_delete_Some. split.
    + intros (Hd & Ht). split; [done|]. intros rt [= <-]. simpl. split; congruence.
    + intros (Ht & Hrt). destruct (Hrt _ eq_refl) as [Hd Hi]. simpl in *.
      split; [congruence | done].
  - rewrite lookup_delete_Some. split.
    + intros (Hd & Ht). split; [done|]. intros rt [= <-]. simpl. split; congruence.
    + intros (Ht & Hrt). destruct (Hrt _ eq_refl) as [Hd Hi]. simpl in *.
      split; [congruence | done].
  - split; [|tauto]. intros Ht. split; [done|]. intros rt [= <-]. simpl. split; congruence.
  - split; [|tauto]. intros Ht. split; [done|]. intros rt. discriminate.
Qed.

Lemma clearRepeat_Inv (k : Z) (s : State) : Inv s -> Inv (clearRepeat k s).
Proof.
  intros [Hnd Hfr Hdl Htk].
  destruct (clearRepeat_frame k s) as (_ & _ & Hkp & _ & _ & Hnt & _).
  split.
  - by rewrite Hkp.
  - intros id t Ht%clearRepeat_timers_Some. rewrite Hnt. by eapply Hfr, Ht.
  - intros id t k' [Ht Hrt]%clearRepeat_timers_Some Hcb.
    destruct (Hdl _ _ _ Ht Hcb) as [Hk He]. split; [done|].
    rewrite clearRepeat_activeRepeats. destruct (decide (k = k')) as [->|Hne].
    + destruct (Hrt _ He) as [Hd _]. by simpl in Hd.
    + by rewrite lookup_delete_ne.
  - intros id t k' [Ht Hrt]%clearRepeat_timers_Some Hcb.
    destruct (Htk _ _ _ Ht Hcb) as [Hk He]. split; [done|].
    rewrite clearRepeat_activeRepeats. destruct (decide (k = k')) as [->|Hne].
    + destruct (Hrt _ He) as [_ Hi]. by simpl in Hi.
    + by rewrite lookup_delete_ne.
Qed.

Lemma timersFor_empty (k : Z) (s : State) :
  timersFor k s = ∅ <-> forall id t, timers s !! id = Some t -> callbackKey (t_cb t) ≠ k.
Proof.
  unfold timersFor. rewrite map_empty. split.
  - intros H id t Ht Hk. specialize (H id).
    assert (filter (fun p : Z * Timer => callbackKey (t_cb p.2) = k) (timers s) !! id = Some t) as Hf
      by (by apply map_lookup_filter_Some).
    congruence.
  - intros H id. apply eq_None_not_Some. intros [t [Ht Hk]%map_lookup_filter_Some].
    by eapply H.
Qed.

(** In a state of the module, [clearRepeat k] leaves no timer for [k]. *)
Lemma clearRepeat_timersFor (k : Z) (s : State) :
  Inv s -> timersFor k (clearRepeat k s) = ∅.
Proof.
  intros [_ _ Hdl Htk]. apply timersFor_empty.
  intros id t [Ht Hrt]%clearRepeat_timers_Some Hk.
  destruct (t_cb t) as [k'|k'] eqn:Hcb; simpl in Hk; subst k'.
  - destruct (Hdl _ _ _ Ht Hcb) as [_ He]. destruct (Hrt _ He) as [Hd _]. by simpl in Hd.
  - destruct (Htk _ _ _ Ht Hcb) as [_ He]. destruct (Hrt _ He) as [_ Hi]. by simpl in Hi.
Qed.

(** ** Normal forms of [pressKey] and [releaseKey] in a ready state *)

Lemma pressKey_ready (k : Z) (s : State) :
  isReady s = true ->
  pressKey k s =
  mkState (loaded s) (isLoading s)
    (if includes (keysPressed s) k then keysPressed s else keysPressed s ++ [k])
    (hostLog s ++ (if includes (keysPressed s) k then [] else [onKeyPressed k])
               ++ [onKeyPressedAndRepeat k])
    (now s)
    (<[nextTimer s := mkTimer Timeout REPEAT_DELAY (now s + REPEAT_DELAY) (DelayElapsed k)]>
       (timers (clearRepeat k s)))
    (nextTimer s + 1)
    (pointerToKey s)
    (<[k := mkRepeat (Some (nextTimer s)) None]> (delete k (activeRepeats s))).
Proof.
  intros Hr. unfold pressKey. rewrite Hr. simpl.
  destruct s as [l ld ks lg t tm n pk ar]. simpl.
  unfold clearRepeat, notify, push, set_hostLog, set_keysPressed. simpl.
  destruct (includes ks k); simpl;
    destruct (ar !! k) as [[[d|] [i|]]|] eqn:E; simpl;
    rewrite <- ?app_assoc; simpl; try reflexivity;
    by rewrite (delete_id ar k E).
Qed.

Lemma pressKey_not_ready (k : Z) (s : State) : isReady s = false -> pressKey k s = s.
Proof. intros Hr. unfold pressKey. by rewrite Hr. Qed.

Lemma releaseKey_ready (k : Z) (s : State) :
  isReady s = true ->
  releaseKey k s =
  mkState (loaded s) (isLoading s)
    (if indexOf (keysPressed s) k =? -1 then keysPressed s
     else splice1 (keysPressed s) (indexOf (keysPressed s) k))
    (hostLog s ++ [onKeyReleased k])
    (now s)
    (timers (clearRepeat k s))
    (nextTimer s)
    (pointerToKey s)
    (delete k (activeRepeats s)).
Proof.
  intros Hr. unfold releaseKey. rewrite Hr. simpl.
  destruct s as [l ld ks lg t tm n pk ar]. simpl.
  unfold clearRepeat. simpl.
  destruct (ar !! k) as [[[d|] [i|]]|] eqn:E; simpl;
    destruct (indexOf ks k =? -1); simpl; try reflexivity;
    by rewrite (delete_id ar k E).
Qed.

Lemma releaseKey_not_ready (k : Z) (s : State) : isReady s = false -> releaseKey k s = s.
Proof. intros Hr. unfold releaseKey. by rewrite Hr. Qed.

Lemma pressKey_isReady (k : Z) (s : State) : isReady (pressKey k s) = isReady s.
Proof.
  destruct (isReady s) eqn:Hr.
  - by rewrite (pressKey_ready k s Hr).
  - by rewrite (pressKey_not_ready k s Hr).
Qed.


(** ** The invariant is kept by every action *)

Lemma initial_Inv (l ld : bool) (ks : list Z) : NoDup ks -> Inv (initial l ld ks).
Proof.
  intros Hnd. split; simpl; [done | | |]; intros id t; rewrite lookup_empty; discriminate.
Qed.

Lemma pressKey_Inv (k : Z) (s : State) : Inv s -> Inv (pressKey k s).
Proof.
  intros HI. destruct (isReady s) eqn:Hr; [|by rewrite pressKey_not_ready].
  rewrite (pressKey_ready k s Hr).
  pose proof (clearRepeat_Inv k s HI) as [_ Hfr Hdl Htk].
  destruct (clearRepeat_frame k s) as (_ & _ & _ & _ & _ & Hnt & _).
  rewrite clearRepeat_activeRepeats in Hdl, Htk. rewrite Hnt in Hfr.
  split; simpl.
  - destruct (includes (keysPressed s) k) eqn:Hin; [apply HI|].
    apply NoDup_app. split; [apply HI|]. split; [|apply NoDup_singleton].
    intros x Hx ->%list_elem_of_singleton. by apply includes_false in Hin.
  - intros id t [[<- _]|[_ Ht]]%lookup_insert_Some; [lia|].
    specialize (Hfr _ _ Ht). lia.
  - intros id t k' [[<- <-]|[Hne Ht]]%lookup_insert_Some Hcb.
    + simpl in Hcb. injection Hcb as <-. by rewrite lookup_insert_eq.
    + destruct (Hdl _ _ _ Ht Hcb) as [Hk He]. split; [done|].
      destruct (decide (k = k')) as [->|Hkk]; [by rewrite lookup_delete_eq in He|].
      by rewrite lookup_insert_ne.
  - intros id t k' [[<- <-]|[Hne Ht]]%lookup_insert_Some Hcb; [discriminate|].
    destruct (Htk _ _ _ Ht Hcb) as [Hk He]. split; [done|].
    destruct (decide (k = k')) as [->|Hkk]; [by rewrite lookup_delete_eq in He|].
    by rewrite lookup_insert_ne.
Qed.

Lemma releaseKey_Inv (k : Z) (s : State) : Inv s -> Inv (releaseKey k s).
Proof.
  intros HI. destruct (isReady s) eqn:Hr; [|by rewrite releaseKey_not_ready].
  rewrite (releaseKey_ready k s Hr).
  pose proof (clearRepeat_Inv k s HI) as [_ Hfr Hdl Htk].
  destruct (clearRepeat_frame k s) as (_ & _ & _ & _ & _ & Hnt & _).
  rewrite clearRepeat_activeRepeats in Hdl, Htk. rewrite Hnt in Hfr.
  split; simpl; try done.
  destruct (indexOf (keysPressed s) k =? -1); [apply HI|].
  apply splice1_indexOf_NoDup, HI.
Qed.

Lemma fireTimer_Inv (id : Z) (s : State) : Inv s -> Inv (fireTimer id s).
Proof.
  intros HI. unfold fireTimer.
  destruct (timers s !! id) as [t|] eqn:Ht; [|done].
  destruct (t_due t <=? now s); [|done].
  destruct HI as [Hnd Hfr Hdl Htk].
  destruct (t_cb t) as [k|k] eqn:Hcb.
  - destruct (Hdl _ _ _ Ht Hcb) as [-> He]. simpl.
    split; simpl; [done | | |].
    + intros id' t' [[<- _]|[_ [_ Ht']%lookup_delete_Some]]%lookup_insert_Some; [lia|].
      specialize (Hfr _ _ Ht'). lia.
    + intros id' t' k' [[<- <-]|[Hne [Hd Ht']%lookup_delete_Some]]%lookup_insert_Some Hcb';
        [discriminate|].
      destruct (Hdl _ _ _ Ht' Hcb') as [Hk He']. split; [done|].
      destruct (decide (k = k')) as [->|Hkk]; [congruence|].
      by rewrite lookup_insert_ne.
    + intros id' t' k' [[<- <-]|[Hne [Hd Ht']%lookup_delete_Some]]%lookup_insert_Some Hcb'.
      * simpl in Hcb'. injection Hcb' as <-. by rewrite lookup_insert_eq.
      * destruct (Htk _ _ _ Ht' Hcb') as [Hk He']. split; [done|].
        destruct (decide (k = k')) as [->|Hkk]; [congruence|].
        by rewrite lookup_insert_ne.
  - destruct (Htk _ _ _ Ht Hcb) as [-> He]. simpl.
    assert (Inv (set_timers (<[id := mkTimer Interval (t_ms t) (now s + t_ms t) (RepeatTick k)]>
                               (timers s)) s)) as HI'.
    { split; simpl; [done | | |].
      - intros id' t' [[<- _]|[_ Ht']]%lookup_insert_Some; by eapply Hfr.
      - intros id' t' k' [[<- <-]|[Hne Ht']]%lookup_insert_Some Hcb'; [discriminate|].
        by eapply Hdl.
      - intros id' t' k' [[<- <-]|[Hne Ht']]%lookup_insert_Some Hcb'.
        + simpl in Hcb'. by injection Hcb' as <-.
        + by eapply Htk. }
    destruct (isReady _ && includes _ k); [|done].
    destruct HI' as [? ? ? ?]. by split.
Qed.

Lemma set_pointerToKey_Inv (m : gmap Z Z) (s : State) : Inv s -> Inv (set_pointerToKey m s).
Proof. intros [? ? ? ?]. by split. Qed.

Lemma handlePointerUp_Inv (p : Z) (s : State) : Inv s -> Inv (handlePointerUp p s).
Proof.
  intros HI. unfold handlePointerUp. destruct (pointerToKey s !! p); [|done].
  by apply releaseKey_Inv, set_pointerToKey_Inv.
Qed.

Lemma documentPointerUp_Inv (p : Z) (s : State) : Inv s -> Inv (documentPointerUp p s).
Proof.
  intros HI. unfold documentPointerUp. destruct (pointerToKey s !! p); [|done].
  by apply releaseKey_Inv, set_pointerToKey_Inv.
Qed.

Lemma step_Inv (a : Action) (s : State) : Inv s -> Inv (step a s).
Proof.
  intros HI. destruct a; simpl.
  - by apply pressKey_Inv.
  - by apply releaseKey_Inv.
  - by apply fireTimer_Inv.
  - destruct HI as [? ? ? ?]. by split.
  - destruct HI as [? ? ? ?]. by split.
  - unfold hostKeyDown. destruct (includes (keysPressed s) keyCode) eqn:Hin; [done|].
    destruct HI as [Hnd ? ? ?]. split; simpl; try done.
    apply NoDup_app. split; [done|]. split; [|apply NoDup_singleton].
    intros x Hx ->%list_elem_of_singleton. by apply includes_false in Hin.
  - unfold hostKeyUp. destruct (indexOf (keysPressed s) keyCode =? -1); [done|].
    destruct HI as [Hnd ? ? ?]. split; simpl; try done.
    by apply splice1_indexOf_NoDup.
  - by apply pressKey_Inv, set_pointerToKey_Inv.
  - unfold dispatchPointerUp.
    assert (Inv (if onButton then handlePointerUp pointerId s else s)) as HI'
      by (destruct onButton; [by apply handlePointerUp_Inv | done]).
    induction listeners as [|n IH]; simpl; [done|].
    by apply documentPointerUp_Inv.
  - by apply handlePointerUp_Inv.
  - by apply handlePointerUp_Inv.
Qed.

Lemma run_Inv (l : list Action) (s : State) : Inv s -> Inv (run l s).
Proof.
  revert s. induction l as [|a l IH]; intros s HI; simpl; [done|].
  by apply IH, step_Inv.
Qed.

(** ** Releasing and pressing in a ready state *)

(** In a ready state of the module, [releaseKey k] leaves neither [k] in
    [keysPressed] nor an entry or a timer for [k]. *)
Lemma releaseKey_ready_clears (k : Z) (s : State) :
  Inv s -> isReady s = true ->
  (k ∉ keysPressed (releaseKey k s)) /\
  activeRepeats (releaseKey k s) !! k = None /\
  timersFor k (releaseKey k s) = ∅.
Proof.
  intros HI Hr. rewrite (releaseKey_ready k s Hr). simpl. split; [|split].
  - destruct (Z.eqb_spec (indexOf (keysPressed s) k) (-1)) as [He|He].
    + by apply indexOf_absent.
    + destruct (splice1_indexOf_gone (keysPressed s) k) as [?|?]; [apply HI|done|done].
  - apply lookup_delete_eq.
  - pose proof (clearRepeat_timersFor k s HI) as Hc.
    rewrite timersFor_empty in Hc. by apply timersFor_empty.
Qed.

(** The handles of [k]'s entry are out of the timer table after a ready
    [releaseKey k], whatever else the table holds. *)
Lemma releaseKey_ready_handles (k : Z) (s : State) (rt : RepeatTimers) (id : Z) :
  isReady s = true -> activeRepeats s !! k = Some rt ->
  (delay rt = Some id \/ interval rt = Some id) ->
  timers (releaseKey k s) !! id = None.
Proof.
  intros Hr He Hid. rewrite (releaseKey_ready k s Hr). simpl.
  apply eq_None_not_Some. intros [t [_ Hrt]%clearRepeat_timers_Some].
  destruct (Hrt _ He) as [Hd Hi]. by destruct Hid.
Qed.

(** In a state of the module, a ready [pressKey k] leaves exactly one timer
    for [k]: the delay timer it has just armed. *)
Lemma pressKey_ready_timersFor (k : Z) (s : State) :
  Inv s -> isReady s = true ->
  timersFor k (pressKey k s) =
  {[ nextTimer s := mkTimer Timeout REPEAT_DELAY (now s + REPEAT_DELAY) (DelayElapsed k) ]}.
Proof.
  intros HI Hr. rewrite (pressKey_ready k s Hr). unfold timersFor. simpl.
  rewrite map_filter_insert_True; [|done].
  pose proof (clearRepeat_timersFor k s HI) as Hc. unfold timersFor in Hc.
  by rewrite Hc.
Qed.

Lemma releaseKey_pointerToKey (k : Z) (s : State) :
  pointerToKey (releaseKey k s) = pointerToKey s.
Proof.
  destruct (isReady s) eqn:Hr.
  - by rewrite (releaseKey_ready k s Hr).
  - by rewrite (releaseKey_not_ready k s Hr).
Qed.

(** A [pointerup] for a tracked pointer that reaches at least one of the
    module's listeners amounts to one [releaseKey] on the state without the
    pointer's entry. *)
Lemma dispatchPointerUp_tracked (k p : Z) (onButton : bool) (listeners : nat) (s : State) :
  pointerToKey s !! p = Some k ->
  (onButton = true \/ (0 < listeners)%nat) ->
  dispatchPointerUp onButton listeners p s =
  releaseKey k (set_pointerToKey (delete p (pointerToKey s)) s).
Proof.
  intros Hp Hl. unfold dispatchPointerUp.
  set (s' := releaseKey k (set_pointerToKey (delete p (pointerToKey s)) s)).
  assert (pointerToKey s' !! p = None) as Hnone
    by (subst s'; rewrite releaseKey_pointerToKey; simpl; apply lookup_delete_eq).
  assert (forall n, Nat.iter n (documentPointerUp p) s' = s') as Hiter.
  { induction n as [|n IH]; simpl; [done|]. rewrite IH.
    unfold documentPointerUp. by rewrite Hnone. }
  destruct onButton.
  - unfold handlePointerUp. rewrite Hp. apply Hiter.
  - destruct listeners as [|n]; [destruct Hl; [done | lia]|].
    rewrite Nat.iter_succ_r. unfold documentPointerUp at 2. rewrite Hp. apply Hiter.
Qed.

(** ** Claims about the input bridge *)

(** C1.  For every key code [k], in a ready state of the module, [pressKey k]
    followed by [releaseKey k] leaves [keysPressed] without [k], leaves no
    [activeRepeats] entry for [k] and leaves no timer (delay or interval)
    registered for [k]; the press in between did hold [k] and did arm a
    timer. *)
Theorem press_then_release (k : Z) (s : State) :
  Inv s -> isReady s = true ->
  let s1 := pressKey k s in
  let s2 := releaseKey k s1 in
  (k ∈ keysPressed s1) /\ is_Some (timers s1 !! nextTimer s) /\
  (k ∉ keysPressed s2) /\
  activeRepeats s2 !! k = None /\
  timersFor k s2 = ∅ /\
  timers s2 !! nextTimer s = None.
Proof.
  intros HI Hr s1 s2.
  assert (Inv s1) as HI1 by (by apply pressKey_Inv).
  assert (isReady s1 = true) as Hr1 by (subst s1; by rewrite pressKey_isReady).
  destruct (releaseKey_ready_clears k s1 HI1 Hr1) as (Hk & He & Ht).
  assert (activeRepeats s1 !! k = Some (mkRepeat (Some (nextTimer s)) None)) as He1
    by (subst s1; rewrite (pressKey_ready k s Hr); simpl; apply lookup_insert_eq).
  repeat split; try done.
  - subst s1. rewrite (pressKey_ready k s Hr). simpl.
    destruct (includes (keysPressed s) k) eqn:Hin; [by apply includes_elem_of|].
    apply elem_of_app. right. by apply list_elem_of_singleton.
  - subst s1. rewrite (pressKey_ready k s Hr). simpl. rewrite lookup_insert_eq. by eexists.
  - eapply (releaseKey_ready_handles k s1); [done | exact He1 | by left].
Qed.

Lemma press_then_release_witness :
  let s := pressKey 65 (initial true false [87]) in
  Inv s /\ isReady s = true /\
  keysPressed (releaseKey 13 (pressKey 13 s)) = [87; 65] /\
  timersFor 13 (releaseKey 13 (pressKey 13 s)) = ∅.
Proof.
  assert (Inv (pressKey 65 (initial true false [87]))) as HI.
  { apply pressKey_Inv, initial_Inv. apply NoDup_singleton. }
  split; [exact HI|]. split; [reflexivity|]. split; [vm_compute; reflexivity|].
  exact (proj1 (proj2 (proj2 (proj2 (proj2
    (press_then_release 13 (pressKey 65 (initial true false [87])) HI eq_refl)))))).
Defined.

(** C2.  On every [pressKey k] in a ready state, [onKeyPressed k] is called
    exactly once if [k] was not in [keysPressed] (and [k] is then appended)
    and not at all if it was, and [onKeyPressedAndRepeat k] is called exactly
    once either way. *)
Theorem press_notifications (k : Z) (s : State) :
  isReady s = true ->
  let s' := pressKey k s in
  let calls := callsSince s s' in
  hostLog s' = hostLog s ++ calls /\
  (count_occ HostCall_eq_dec calls (onKeyPressed k) = 1%nat <-> k ∉ keysPressed s) /\
  (count_occ HostCall_eq_dec calls (onKeyPressed k) = 0%nat <-> k ∈ keysPressed s) /\
  count_occ HostCall_eq_dec calls (onKeyPressedAndRepeat k) = 1%nat /\
  (k ∉ keysPressed s -> keysPressed s' = keysPressed s ++ [k]) /\
  (k ∈ keysPressed s -> keysPressed s' = keysPressed s).
Proof.
  intros Hr s' calls. subst calls s'. unfold callsSince.
  rewrite (pressKey_ready k s Hr). cbn [hostLog keysPressed]. rewrite drop_app_length.
  destruct (includes (keysPressed s) k) eqn:Hin; cbn [app].
  - assert (k ∈ keysPressed s) as Hk by (by apply includes_elem_of).
    rewrite count_occ_cons_neq by discriminate.
    rewrite count_occ_cons_eq by reflexivity. cbn [count_occ].
    repeat split; try done.
  - assert (k ∉ keysPressed s) as Hk by (by apply includes_false).
    rewrite count_occ_cons_eq by reflexivity.
    rewrite count_occ_cons_neq by discriminate.
    rewrite count_occ_cons_neq by discriminate.
    rewrite count_occ_cons_eq by reflexivity. cbn [count_occ].
    repeat split; try done.
Qed.

Lemma press_notifications_witness :
  isReady (initial true false [87]) = true /\
  callsSince (initial true false [87]) (pressKey 87 (initial true false [87]))
    = [onKeyPressedAndRepeat 87] /\
  callsSince (initial true false [87]) (pressKey 65 (initial true false [87]))
    = [onKeyPressed 65; onKeyPressedAndRepeat 65] /\
  count_occ HostCall_eq_dec
    (callsSince (initial true false [87]) (pressKey 65 (initial true false [87])))
    (onKeyPressedAndRepeat 65) = 1%nat.
Proof.
  split; [reflexivity|]. split; [vm_compute; reflexivity|]. split; [vm_compute; reflexivity|].
  exact (proj1 (proj2 (proj2 (proj2
    (press_notifications 65 (initial true false [87]) eq_refl))))).
Defined.

(** C3.  In a ready state of the module, two [pressKey k] in a row, any time
    apart, leave exactly one [k] in [keysPressed]; the second call removes
    the delay timer the first one armed and arms a fresh one, due
    [REPEAT_DELAY] = 180 ms after the second call, which is then the only
    timer for [k]. *)
Theorem press_twice (k dt : Z) (s : State) :
  Inv s -> isReady s = true ->
  let first := mkTimer Timeout 180 (now s + 180) (DelayElapsed k) in
  let second := mkTimer Timeout 180 (now s + Z.max 0 dt + 180) (DelayElapsed k) in
  let s1 := pressKey k s in
  let s2 := pressKey k (step (Elapse dt) s1) in
  count_occ Z.eq_dec (keysPressed s2) k = 1%nat /\
  timers s1 !! nextTimer s = Some first /\
  activeRepeats s1 !! k = Some (mkRepeat (Some (nextTimer s)) None) /\
  timers s2 !! nextTimer s = None /\
  timers s2 !! (nextTimer s + 1) = Some second /\
  activeRepeats s2 !! k = Some (mkRepeat (Some (nextTimer s + 1)) None) /\
  timersFor k s2 = {[ nextTimer s + 1 := second ]}.
Proof.
  intros HI Hr first second s1 s2.
  assert (Inv s1) as HI1 by (by apply pressKey_Inv).
  assert (timers s1 !! nextTimer s = Some first) as Ht1
    by (subst s1; rewrite (pressKey_ready k s Hr); simpl; apply lookup_insert_eq).
  assert (activeRepeats s1 !! k = Some (mkRepeat (Some (nextTimer s)) None)) as He
    by (subst s1; rewrite (pressKey_ready k s Hr); simpl; apply lookup_insert_eq).
  assert (k ∈ keysPressed s1) as Hk.
  { subst s1. rewrite (pressKey_ready k s Hr). simpl.
    destruct (includes (keysPressed s) k) eqn:Hin; [by apply includes_elem_of|].
    apply elem_of_app. right. by apply list_elem_of_singleton. }
  assert (isReady s1 = true) as Hr1 by (subst s1; by rewrite pressKey_isReady).
  assert (nextTimer s1 = nextTimer s + 1) as Hn
    by (subst s1; by rewrite (pressKey_ready k s Hr)).
  assert (now s1 = now s) as Hnow by (subst s1; by rewrite (pressKey_ready k s Hr)).
  clearbody s1.
  set (s1' := step (Elapse dt) s1) in *.
  assert (Inv s1') as HI1' by (by apply step_Inv).
  assert (isReady s1' = true) as Hr1' by exact Hr1.
  assert (nextTimer s1' = nextTimer s + 1) as Hn' by exact Hn.
  assert (now s1' = now s + Z.max 0 dt) as Hnow' by (simpl; by rewrite Hnow).
  assert (activeRepeats s1' !! k = Some (mkRepeat (Some (nextTimer s)) None)) as He'
    by exact He.
  assert (k ∈ keysPressed s1') as Hk' by exact Hk.
  clearbody s1'.
  pose proof (pressKey_ready_timersFor k s1' HI1' Hr1') as Hf.
  assert (includes (keysPressed s1') k = true) as Hin by (by apply includes_elem_of).
  subst s2. rewrite (pressKey_ready k s1' Hr1') in Hf |- *.
  cbn [keysPressed timers activeRepeats].
  rewrite Hn', Hnow', Hin in Hf |- *. repeat split.
  - pose proof (NoDup_count_occ_le (keysPressed s1') k (inv_nodup _ HI1')).
    assert (count_occ Z.eq_dec (keysPressed s1') k ≠ 0%nat)
      by (rewrite count_occ_zero_not_elem; tauto).
    lia.
  - exact Ht1.
  - exact He.
  - rewrite lookup_insert_ne by lia.
    apply eq_None_not_Some. intros [t [_ Hrt]%clearRepeat_timers_Some].
    destruct (Hrt _ He') as [Hd _]. by simpl in Hd.
  - apply lookup_insert_eq.
  - apply lookup_insert_eq.
  - exact Hf.
Qed.

Lemma press_twice_witness :
  Inv (initial true false []) /\ isReady (initial true false []) = true /\
  timers (pressKey 13 (step (Elapse 100) (pressKey 13 (initial true false [])))) !! 2
    = Some (mkTimer Timeout 180 280 (DelayElapsed 13)) /\
  keysPressed (pressKey 13 (step (Elapse 100) (pressKey 13 (initial true false [])))) = [13].
Proof.
  assert (Inv (initial true false [])) as HI by (apply initial_Inv, NoDup_nil; exact I).
  split; [exact HI|]. split; [reflexivity|]. split; [|vm_compute; reflexivity].
  exact (proj1 (proj2 (proj2 (proj2 (proj2
    (press_twice 13 100 (initial true false []) HI eq_refl)))))).
Defined.

(** C5.  [pressKey k] in a state that is not ready changes nothing: not
    [keysPressed], not the timer table nor the timer counter, not
    [activeRepeats], and no call reaches the host. *)
Theorem press_not_ready (k : Z) (s : State) :
  isReady s = false ->
  pressKey k s = s /\
  keysPressed (pressKey k s) = keysPressed s /\
  timers (pressKey k s) = timers s /\
  nextTimer (pressKey k s) = nextTimer s /\
  activeRepeats (pressKey k s) !! k = activeRepeats s !! k /\
  callsSince s (pressKey k s) = [].
Proof.
  intros Hr. rewrite (pressKey_not_ready k s Hr). repeat split.
  unfold callsSince. apply drop_all.
Qed.

Lemma press_not_ready_witness :
  isReady (initial true true [87]) = false /\
  isReady (initial false false [87]) = false /\
  pressKey 13 (initial true true [87]) = initial true true [87] /\
  pressKey 13 (initial false false [87]) = initial false false [87].
Proof.
  split; [reflexivity|]. split; [reflexivity|]. split.
  - exact (proj1 (press_not_ready 13 (initial true true [87]) eq_refl)).
  - exact (proj1 (press_not_ready 13 (initial false false [87]) eq_refl)).
Defined.

(** Firing a timer that carries the interval tick for [k] touches the timer
    table and, under the tick's guard, the host log; nothing else. *)
Lemma fireTimer_tick (k id : Z) (t : Timer) (s : State) :
  timers s !! id = Some t -> t_cb t = RepeatTick k ->
  exists tm : gmap Z Timer,
    fireTimer id s =
    if (t_due t <=? now s) && (isReady s && includes (keysPressed s) k)
    then notify (onKeyPressedAndRepeat k) (set_timers tm s)
    else set_timers tm s.
Proof.
  intros Ht Hcb. unfold fireTimer. rewrite Ht, Hcb.
  destruct (t_due t <=? now s); cbn [andb].
  - destruct (t_kind t); eexists; reflexivity.
  - exists (timers s). by destruct s.
Qed.

(** C6.  When the browser fires a timer whose callback is the interval tick
    for [k], no host call is made if the host is not ready or [k] is not in
    [keysPressed]; if the timer is due, the host ready and [k] pressed,
    exactly [onKeyPressedAndRepeat k] is called.  The tick changes neither
    [keysPressed] nor [activeRepeats]. *)
Theorem repeat_tick_guard (k id : Z) (t : Timer) (s : State) :
  timers s !! id = Some t -> t_cb t = RepeatTick k ->
  let s' := fireTimer id s in
  (isReady s = false \/ k ∉ keysPressed s -> callsSince s s' = []) /\
  (t_due t <= now s -> isReady s = true -> k ∈ keysPressed s ->
   callsSince s s' = [onKeyPressedAndRepeat k]) /\
  (onKeyPressedAndRepeat k ∈ callsSince s s' -> isReady s = true /\ k ∈ keysPressed s) /\
  keysPressed s' = keysPressed s /\ activeRepeats s' = activeRepeats s.
Proof.
  intros Ht Hcb s'. subst s'. unfold callsSince.
  destruct (fireTimer_tick k id t s Ht Hcb) as [tm ->].
  destruct (Z.leb_spec (t_due t) (now s)) as [Hdue|Hdue];
    destruct (isReady s) eqn:Hr;
    (destruct (includes (keysPressed s) k) eqn:Hin;
     [apply includes_elem_of in Hin | apply includes_false in Hin]);
    cbn [andb notify set_hostLog set_timers hostLog keysPressed activeRepeats];
    rewrite ?drop_app_length, ?drop_all;
    (split; [|split; [|split; [|split]]]); try done;
    try (intros [?|?]; done); try (intros []%elem_of_nil); try lia.
Qed.

Lemma repeat_tick_guard_witness :
  let s := run [Press 13; Elapse 180; Fire 1; Elapse 60] (initial true false []) in
  let tick := mkTimer Interval 60 240 (RepeatTick 13) in
  timers s !! 2 = Some tick /\
  callsSince s (fireTimer 2 s) = [onKeyPressedAndRepeat 13] /\
  callsSince (step (HostReady true true) s) (fireTimer 2 (step (HostReady true true) s)) = [] /\
  callsSince (step (HostKeyUp 13) s) (fireTimer 2 (step (HostKeyUp 13) s)) = [].
Proof.
  set (s := run [Press 13; Elapse 180; Fire 1; Elapse 60] (initial true false [])).
  set (tick := mkTimer Interval 60 240 (RepeatTick 13)).
  assert (timers s !! 2 = Some tick) as Ht by (vm_compute; reflexivity).
  assert (timers (step (HostReady true true) s) !! 2 = Some tick) as Ht1
    by (vm_compute; reflexivity).
  assert (timers (step (HostKeyUp 13) s) !! 2 = Some tick) as Ht2
    by (vm_compute; reflexivity).
  split; [exact Ht|]. split; [|split].
  - apply (proj1 (proj2 (repeat_tick_guard 13 2 tick s Ht eq_refl))).
    + vm_compute. discriminate.
    + reflexivity.
    + vm_compute. left.
  - apply (proj1 (repeat_tick_guard 13 2 tick _ Ht1 eq_refl)). left. reflexivity.
  - apply (proj1 (repeat_tick_guard 13 2 tick _ Ht2 eq_refl)). right.
    vm_compute. intros []%elem_of_nil.
Defined.

(** C8.  A [pointerup] for a pointer tracked as driving [k], reaching the
    button's listener, the document's listeners or both, releases [k] once:
    the dispatch as a whole is one [releaseKey k] on the state without the
    pointer's entry; whichever listener runs afterwards for that pointer
    finds no entry and changes nothing; and in a ready state the host is
    told [onKeyReleased k] exactly once. *)
Theorem pointer_up_releases_once (k p : Z) (onButton : bool) (listeners : nat) (s : State) :
  pointerToKey s !! p = Some k ->
  (onButton = true \/ (0 < listeners)%nat) ->
  let s' := dispatchPointerUp onButton listeners p s in
  s' = releaseKey k (set_pointerToKey (delete p (pointerToKey s)) s) /\
  pointerToKey s' !! p = None /\
  handlePointerUp p s' = s' /\
  documentPointerUp p s' = s' /\
  (isReady s = true ->
   callsSince s s' = [onKeyReleased k] /\
   count_occ HostCall_eq_dec (callsSince s s') (onKeyReleased k) = 1%nat) /\
  (isReady s = false -> callsSince s s' = []).
Proof.
  intros Hp Hl s'. subst s'. rewrite (dispatchPointerUp_tracked k p onButton listeners s Hp Hl).
  set (s0 := set_pointerToKey (delete p (pointerToKey s)) s).
  assert (pointerToKey (releaseKey k s0) !! p = None) as Hnone
    by (rewrite releaseKey_pointerToKey; apply lookup_delete_eq).
  split; [done|]. split; [done|].
  split; [unfold handlePointerUp; by rewrite Hnone|].
  split; [unfold documentPointerUp; by rewrite Hnone|].
  unfold callsSince. split; intros Hr.
  - rewrite (releaseKey_ready k s0 Hr). cbn [hostLog s0 set_pointerToKey].
    rewrite drop_app_length. split; [done|].
    by rewrite count_occ_cons_eq.
  - rewrite (releaseKey_not_ready k s0 Hr). apply drop_all.
Qed.

Lemma pointer_up_releases_once_witness :
  let s := handlePointerDown 13 7 (initial true false []) in
  pointerToKey s !! 7 = Some 13 /\
  callsSince s (dispatchPointerUp false 1 7 s) = [onKeyReleased 13] /\
  callsSince s (dispatchPointerUp true 2 7 s) = [onKeyReleased 13] /\
  keysPressed (dispatchPointerUp true 2 7 s) = [].
Proof.
  set (s := handlePointerDown 13 7 (initial true false [])).
  assert (pointerToKey s !! 7 = Some 13) as Hp by (vm_compute; reflexivity).
  split; [exact Hp|]. split; [|split].
  - apply (proj1 (proj2 (proj2 (proj2 (proj2
      (pointer_up_releases_once 13 7 false 1 s Hp (or_intror (le_n 1)))))))).
    reflexivity.
  - apply (proj1 (proj2 (proj2 (proj2 (proj2
      (pointer_up_releases_once 13 7 true 2 s Hp (or_introl eq_refl))))))).
    reflexivity.
  - vm_compute. reflexivity.
Defined.

(** ** Release while the host is not ready *)

Lemma endsPress_step (a : Action) (k : Z) (s : State) :
  endsPress a s = Some k ->
  exists m : gmap Z Z, step a s = releaseKey k (set_pointerToKey m s).
Proof.
  destruct a; simpl; try discriminate.
  - intros [= ->]. exists (pointerToKey s). by destruct s.
  - destruct (onButton || (0 <? listeners)%nat) eqn:Hb; [|discriminate].
    intros Hp. eexists. apply dispatchPointerUp_tracked; [done|].
    apply orb_true_iff in Hb as [->|Hn%Nat.ltb_lt]; [by left | by right].
  - intros Hp. unfold handlePointerUp. rewrite Hp. by eexists.
  - intros Hp. unfold handlePointerUp. rewrite Hp. by eexists.
Qed.

(** C4, as the code has it.  Whatever ends a press of [k] (an explicit
    release, a pointer cancel, a loss of capture, a pointer-up reaching the
    button or the document), in a ready state both handles of [k]'s entry
    leave the timer table, the entry is removed and, in a state of the
    module, no timer for [k] remains; in a state that is not ready the
    release does nothing, and timers, entries and pressed keys stay as they
    were. *)
Theorem release_clears_when_ready (a : Action) (k : Z) (s : State) :
  endsPress a s = Some k ->
  let s' := step a s in
  (isReady s = true ->
   activeRepeats s' !! k = None /\
   (forall rt id, activeRepeats s !! k = Some rt ->
                  delay rt = Some id \/ interval rt = Some id -> timers s' !! id = None) /\
   (Inv s -> timersFor k s' = ∅)) /\
  (isReady s = false ->
   timers s' = timers s /\ activeRepeats s' = activeRepeats s /\
   keysPressed s' = keysPressed s /\ callsSince s s' = []).
Proof.
  intros He s'. subst s'. destruct (endsPress_step a k s He) as [m ->].
  set (s0 := set_pointerToKey m s). split; intros Hr.
  - assert (isReady s0 = true) as Hr0 by exact Hr. split; [|split].
    + rewrite (releaseKey_ready k s0 Hr0). apply lookup_delete_eq.
    + intros rt id Hrt Hid. by apply (releaseKey_ready_handles k s0 rt id Hr0 Hrt).
    + intros HI. apply releaseKey_ready_clears; [by apply set_pointerToKey_Inv | done].
  - assert (isReady s0 = false) as Hr0 by exact Hr.
    rewrite (releaseKey_not_ready k s0 Hr0). repeat split.
    unfold callsSince. apply drop_all.
Qed.

Lemma release_clears_when_ready_witness :
  let s := run [PointerDown 13 7; Elapse 180; Fire 1] (initial true false []) in
  endsPress (PointerCancel 7) s = Some 13 /\
  activeRepeats s !! 13 = Some (mkRepeat None (Some 2)) /\
  activeRepeats (step (PointerCancel 7) s) !! 13 = None /\
  timers (step (PointerCancel 7) s) !! 2 = None.
Proof.
  set (s := run [PointerDown 13 7; Elapse 180; Fire 1] (initial true false [])).
  assert (endsPress (PointerCancel 7) s = Some 13) as He by (vm_compute; reflexivity).
  assert (activeRepeats s !! 13 = Some (mkRepeat None (Some 2))) as Hrt
    by (vm_compute; reflexivity).
  destruct (proj1 (release_clears_when_ready (PointerCancel 7) 13 s He) eq_refl)
    as (H1 & H2 & _).
  split; [exact He|]. split; [exact Hrt|]. split; [exact H1|].
  exact (H2 _ 2 Hrt (or_intror eq_refl)).
Defined.

(** C4, as stated, fails: a key pressed while the host was ready and
    released after the host has started loading keeps its entry and its
    timer; the pointer's entry is gone, so nothing releases the key later,
    and once the host is ready again the timers go on repeating it. *)
Lemma release_not_ready_keeps_timers :
  let s := run [PointerDown 13 7; HostReady true true] (initial true false []) in
  let s' := step (PointerUp true 1 7) s in
  isReady s = false /\
  endsPress (PointerUp true 1 7) s = Some 13 /\
  activeRepeats s' !! 13 = Some (mkRepeat (Some 1) None) /\
  timers s' !! 1 = Some (mkTimer Timeout 180 180 (DelayElapsed 13)) /\
  keysPressed s' = [13] /\
  pointerToKey s' !! 7 = None /\
  callsSince s' (run [HostReady true false; Elapse 180; Fire 1; Elapse 60; Fire 2] s')
    = [onKeyPressedAndRepeat 13] /\
  ~ (forall a k s, Inv s -> endsPress a s = Some k -> activeRepeats (step a s) !! k = None).
Proof.
  split; [reflexivity|]. split; [vm_compute; reflexivity|].
  split; [vm_compute; reflexivity|]. split; [vm_compute; reflexivity|].
  split; [vm_compute; reflexivity|]. split; [vm_compute; reflexivity|].
  split; [vm_compute; reflexivity|].
  intros H.
  specialize (H (PointerUp true 1 7) 13
                (run [PointerDown 13 7; HostReady true true] (initial true false []))).
  assert (Inv (run [PointerDown 13 7; HostReady true true] (initial true false []))) as HI
    by (apply run_Inv, initial_Inv, NoDup_nil; exact I).
  specialize (H HI). vm_compute in H. specialize (H eq_refl). discriminate.
Qed.

(** ** The document *)

Lemma Element_ind (P : Element -> Prop) :
  (forall t i p l c, Forall P c -> P (mkElement t i p l c)) ->
  forall e, P e.
Proof.
  intros H. fix IH 1. intros [t i p l c]. apply H.
  induction c as [|x r IHr]; constructor; [apply IH | apply IHr].
Qed.

Lemma countId_unfold (i t i' : string) p l (c : list Element) :
  countId i (mkElement t i' p l c) =
  ((if String.eqb i' i then 1 else 0) + countIdList i c)%nat.
Proof.
  simpl. f_equal. unfold countIdList.
  induction c as [|x r IH]; simpl; [done | by rewrite IH].
Qed.

Lemma countNodes_unfold (t i : string) p l (c : list Element) :
  countNodes (mkElement t i p l c) = S (countNodesList c).
Proof.
  simpl. f_equal. unfold countNodesList.
  induction c as [|x r IH]; simpl; [done | by rewrite IH].
Qed.

Lemma countId_appendChild (i : string) (child e : Element) :
  countId i (appendChild child e) = (countId i e + countId i child)%nat.
Proof.
  destruct e as [t i' p l c]. unfold appendChild. rewrite !countId_unfold.
  unfold countIdList. rewrite map_app, list_sum_app. simpl. lia.
Qed.

Lemma countNodes_appendChild (child e : Element) :
  countNodes (appendChild child e) = (countNodes e + countNodes child)%nat.
Proof.
  destruct e as [t i' p l c]. unfold appendChild. rewrite !countNodes_unfold.
  unfold countNodesList. rewrite map_app, list_sum_app. simpl. lia.
Qed.

(** [getElementById] finds nothing exactly when no element has the id. *)
Lemma getElementById_None (i : string) (e : Element) :
  getElementById i e = None <-> countId i e = 0%nat.
Proof.
  induction e as [t i' p l c IH] using Element_ind.
  rewrite countId_unfold. simpl. destruct (String.eqb i' i).
  - split; [discriminate | lia].
  - simpl. unfold countIdList. induction IH as [|x r Hx Hr IHr]; simpl; [done|].
    destruct (getElementById i x) eqn:Hg.
    + split; [discriminate|]. intros Hc.
      assert (countId i x = 0%nat) as Hz by lia. apply Hx in Hz. discriminate.
    + rewrite IHr. assert (countId i x = 0%nat) as -> by (by apply Hx). done.
Qed.

Lemma getElementById_Some (i : string) (e : Element) :
  is_Some (getElementById i e) <-> (0 < countId i e)%nat.
Proof.
  pose proof (getElementById_None i e) as [H1 H2].
  destruct (getElementById i e) as [x|]; split; intros Hs.
  - destruct (countId i e); [|lia]. by specialize (H2 eq_refl).
  - by eexists.
  - by destruct Hs.
  - rewrite (H1 eq_refl) in Hs. lia.
Qed.

(** The D-Pad cluster: one element with [DPAD_ID], none with [ABXY_ID],
    nine elements in all (the container, four buttons, four images). *)
Lemma dpad_cluster_counts (kc : KeyCodes.t) :
  let cluster := appendButtons (dpadButtons kc) (createContainer DPAD_ID "left") in
  countId DPAD_ID cluster = 1%nat /\ countId ABXY_ID cluster = 0%nat /\
  countNodes cluster = 9%nat.
Proof. repeat split. Qed.

Lemma abxy_cluster_counts (kc : KeyCodes.t) :
  let cluster := appendButtons (abxyButtons kc) (createContainer ABXY_ID "right") in
  countId ABXY_ID cluster = 1%nat /\ countId DPAD_ID cluster = 0%nat /\
  countNodes cluster = 9%nat.
Proof. repeat split. Qed.

Lemma mountDPad_present (kc : KeyCodes.t) (b : Element) :
  (0 < countId DPAD_ID b)%nat -> mountDPad kc b = b.
Proof.
  intros [x Hx]%getElementById_Some. unfold mountDPad. by rewrite Hx.
Qed.

Lemma mountABXY_present (kc : KeyCodes.t) (b : Element) :
  (0 < countId ABXY_ID b)%nat -> mountABXY kc b = b.
Proof.
  intros [x Hx]%getElementById_Some. unfold mountABXY. by rewrite Hx.
Qed.

Lemma mountDPad_countId (kc : KeyCodes.t) (b : Element) :
  countId DPAD_ID (mountDPad kc b) = Nat.max 1 (countId DPAD_ID b) /\
  countId ABXY_ID (mountDPad kc b) = countId ABXY_ID b.
Proof.
  unfold mountDPad. destruct (getElementById DPAD_ID b) as [x|] eqn:Hg.
  - assert (0 < countId DPAD_ID b)%nat by (apply getElementById_Some; by eexists). lia.
  - apply getElementById_None in Hg. rewrite !countId_appendChild.
    destruct (dpad_cluster_counts kc) as (-> & -> & _). lia.
Qed.

Lemma mountABXY_countId (kc : KeyCodes.t) (b : Element) :
  countId ABXY_ID (mountABXY kc b) = Nat.max 1 (countId ABXY_ID b) /\
  countId DPAD_ID (mountABXY kc b) = countId DPAD_ID b.
Proof.
  unfold mountABXY. destruct (getElementById ABXY_ID b) as [x|] eqn:Hg.
  - assert (0 < countId ABXY_ID b)%nat by (apply getElementById_Some; by eexists). lia.
  - apply getElementById_None in Hg. rewrite !countId_appendChild.
    destruct (abxy_cluster_counts kc) as (-> & -> & _). lia.
Qed.

(** C9.  Mounting a cluster whose container id is already in the document
    returns the document as it is.  Hence each mount is idempotent, and
    mounting both clusters a second time changes nothing: the same
    document, the same number of elements, and, for a document that had at
    most one element per container id to begin with, exactly one element
    per container id. *)
Theorem mount_idempotent (kc : KeyCodes.t) (b : Element) :
  (is_Some (getElementById DPAD_ID b) -> mountDPad kc b = b) /\
  (is_Some (getElementById ABXY_ID b) -> mountABXY kc b = b) /\
  mountDPad kc (mountDPad kc b) = mountDPad kc b /\
  mountABXY kc (mountABXY kc b) = mountABXY kc b /\
  let once := mountABXY kc (mountDPad kc b) in
  let twice := mountABXY kc (mountDPad kc once) in
  twice = once /\
  countNodes twice = countNodes once /\
  ((countId DPAD_ID b <= 1)%nat -> countId DPAD_ID twice = 1%nat) /\
  ((countId ABXY_ID b <= 1)%nat -> countId ABXY_ID twice = 1%nat).
Proof.
  destruct (mountDPad_countId kc b) as [Hd1 Hd2].
  destruct (mountABXY_countId kc (mountDPad kc b)) as [Ha1 Ha2].
  assert (mountABXY kc (mountDPad kc (mountABXY kc (mountDPad kc b))) =
          mountABXY kc (mountDPad kc b)) as Htwice.
  { rewrite (mountDPad_present kc (mountABXY kc (mountDPad kc b))) by lia.
    apply mountABXY_present. lia. }
  split; [intros Hs%getElementById_Some; by apply mountDPad_present|].
  split; [intros Hs%getElementById_Some; by apply mountABXY_present|].
  split; [apply mountDPad_present; lia|].
  split; [apply mountABXY_present; destruct (mountABXY_countId kc b); lia|].
  intros once twice. subst once twice. rewrite Htwice.
  repeat split; intros; lia.
Qed.

Lemma mount_idempotent_witness :
  let kc := KeyCodes.mk (num 87) (num 83) (num 65) (num 68) (num 13) (num 27) (num 13) (num 27) in
  let b := mountDPad kc (createElement "body") in
  is_Some (getElementById DPAD_ID b) /\ (countId ABXY_ID b <= 1)%nat /\
  mountDPad kc b = b /\
  countId ABXY_ID (mountABXY kc (mountDPad kc (mountABXY kc (mountDPad kc b)))) = 1%nat /\
  countNodes (mountABXY kc (mountDPad kc (mountABXY kc (mountDPad kc b)))) = 19%nat.
Proof.
  set (kc := KeyCodes.mk (num 87) (num 83) (num 65) (num 68) (num 13) (num 27) (num 13) (num 27)).
  set (b := mountDPad kc (createElement "body")).
  assert (is_Some (getElementById DPAD_ID b)) as Hs by (vm_compute; by eexists).
  assert (countId ABXY_ID b <= 1)%nat as Hc by (vm_compute; lia).
  split; [exact Hs|]. split; [exact Hc|]. split; [|split].
  - exact (proj1 (mount_idempotent kc b) Hs).
  - exact (proj2 (proj2 (proj2 (proj2 (proj2 (proj2 (proj2 (mount_idempotent kc b))))))) Hc).
  - vm_compute. reflexivity.
Defined.

(** Activation adds a document listener each time it runs with the gamepad
    shown, so at least one is installed whenever the clusters are. *)
Lemma activateMobileControls_listeners (kc : KeyCodes.t) (pg : Page) :
  ToBoolean (showGamepad pg) = true ->
  documentListeners (activateMobileControls kc pg) = S (documentListeners pg) /\
  documentBody (activateMobileControls kc pg) = mountABXY kc (mountDPad kc (documentBody pg)).
Proof. intros Hs. unfold activateMobileControls. by rewrite Hs. Qed.

(** A second activation leaves the body as the first one made it and adds
    one more document listener. *)
Lemma activateMobileControls_again (kc : KeyCodes.t) (pg : Page) :
  ToBoolean (showGamepad pg) = true ->
  let once := activateMobileControls kc pg in
  let twice := activateMobileControls kc once in
  documentBody twice = documentBody once /\
  documentListeners twice = S (S (documentListeners pg)).
Proof.
  intros Hs once twice.
  destruct (activateMobileControls_listeners kc pg Hs) as [Hl Hb].
  assert (ToBoolean (showGamepad once) = true) as Hs'
    by (subst once; unfold activateMobileControls; by rewrite Hs).
  destruct (activateMobileControls_listeners kc once Hs') as [Hl' Hb'].
  subst twice. rewrite Hl', Hb'. fold once in Hl, Hb. rewrite Hl, Hb. split; [|done].
  destruct (mountDPad_countId kc (documentBody pg)) as [Hd1 Hd2].
  destruct (mountABXY_countId kc (mountDPad kc (documentBody pg))) as [Ha1 Ha2].
  rewrite (mountDPad_present kc (mountABXY kc (mountDPad kc (documentBody pg)))) by lia.
  apply mountABXY_present. lia.
Qed.

(** ** Parameter resolution *)

(** [resolveKeyCode] by cases on what the host answers. *)
Lemma resolveKeyCode_cases (h : Host) (name : string) (fallback : JsValue) :
  resolveKeyCode h name fallback =
  Normal match getParameter h pluginName name with
         | Normal value => if isFinite (Number value) then JNum (Number value) else fallback
         | Throw _ => fallback
         end.
Proof.
  unfold resolveKeyCode. by destruct (getParameter h pluginName name).
Qed.

Lemma KEY_CODES_total (h : Host) : exists kc, KEY_CODES h = Normal kc.
Proof.
  unfold KEY_CODES. rewrite !resolveKeyCode_cases. by eexists.
Qed.

(** C10.  [resolveKeyCode] returns [Number(value)] whenever that is finite,
    and the fallback when it is not or when [getParameter] throws; these are
    the only outcomes.  In particular [null], the empty string and [false]
    give key code 0, while [undefined], a string that is not a numeric
    literal and an infinity give the fallback. *)
Theorem resolveKeyCode_spec (h : Host) (name : string) (fallback : JsValue) :
  let result := resolveKeyCode h name fallback in
  let read := getParameter h pluginName name in
  (forall value, read = Normal value -> isFinite (Number value) = true ->
                 result = Normal (JNum (Number value))) /\
  (forall value, read = Normal value -> isFinite (Number value) = false ->
                 result = Normal fallback) /\
  (forall e, read = Throw e -> result = Normal fallback) /\
  (exists r, result = Normal r /\
     ((exists value, read = Normal value /\ isFinite (Number value) = true /\
                     r = JNum (Number value)) \/
      (r = fallback /\
       ((exists e, read = Throw e) \/
        (exists value, read = Normal value /\ isFinite (Number value) = false))))) /\
  (read = Normal JNull -> result = Normal (num 0)) /\
  (read = Normal (JStr EmptyString) -> result = Normal (num 0)) /\
  (read = Normal (JBool false) -> result = Normal (num 0)) /\
  (read = Normal JUndefined -> result = Normal fallback) /\
  (forall s, read = Normal (JStr s) -> StringToNumber s = NaN -> result = Normal fallback) /\
  (forall negative, read = Normal (JNum (Infinity negative)) -> result = Normal fallback).
Proof.
  intros result read. subst result read. rewrite resolveKeyCode_cases.
  destruct (getParameter h pluginName name) as [value|e] eqn:Hread.
  - repeat split; try discriminate.
    + intros v [= <-] ->. reflexivity.
    + intros v [= <-] ->. reflexivity.
    + eexists. split; [reflexivity|].
      destruct (isFinite (Number value)) eqn:Hf.
      * left. by exists value.
      * right. split; [reflexivity|]. right. by exists value.
    + by intros [= ->].
    + by intros [= ->].
    + by intros [= ->].
    + by intros [= ->].
    + intros s [= ->] Hs. simpl. by rewrite Hs.
    + by intros negative [= ->].
  - repeat split; try discriminate; try done.
    eexists. split; [reflexivity|]. right. split; [reflexivity|]. left. by exists e.
Qed.

Lemma resolveKeyCode_spec_witness :
  resolveKeyCode sampleHost "MoveUpKeyCode" (num 87) = Normal (num 38) /\
  resolveKeyCode sampleHost "MoveDownKeyCode" (num 83) = Normal (num 0) /\
  resolveKeyCode sampleHost "MoveLeftKeyCode" (num 65) = Normal (num 0) /\
  resolveKeyCode sampleHost "MoveRightKeyCode" (num 68) = Normal (num 0) /\
  resolveKeyCode sampleHost "ActionKeyCode" (num 13) = Normal (num 13) /\
  resolveKeyCode sampleHost "CancelKeyCode" (num 27) = Normal (num 27) /\
  resolveKeyCode sampleHost "ButtonXKeyCode" (num 13) = Normal (num 13) /\
  resolveKeyCode sampleHost "ButtonYKeyCode" (num 27) = Normal (num 27).
Proof.
  split; [|split; [|split; [|split; [|split; [|split; [|split]]]]]].
  - exact (proj1 (resolveKeyCode_spec sampleHost "MoveUpKeyCode" (num 87))
             (JStr "38") eq_refl eq_refl).
  - exact (proj1 (proj2 (proj2 (proj2 (proj2
             (resolveKeyCode_spec sampleHost "MoveDownKeyCode" (num 83)))))) eq_refl).
  - exact (proj1 (proj2 (proj2 (proj2 (proj2 (proj2
             (resolveKeyCode_spec sampleHost "MoveLeftKeyCode" (num 65))))))) eq_refl).
  - exact (proj1 (proj2 (proj2 (proj2 (proj2 (proj2 (proj2
             (resolveKeyCode_spec sampleHost "MoveRightKeyCode" (num 68)))))))) eq_refl).
  - exact (proj1 (proj2 (proj2 (proj2 (proj2 (proj2 (proj2 (proj2 (proj2
             (resolveKeyCode_spec sampleHost "ActionKeyCode" (num 13))))))))))
             "enter" eq_refl eq_refl).
  - exact (proj2 (proj2 (proj2 (proj2 (proj2 (proj2 (proj2 (proj2 (proj2
             (resolveKeyCode_spec sampleHost "CancelKeyCode" (num 27))))))))))
             false eq_refl).
  - exact (proj1 (proj2 (proj2 (resolveKeyCode_spec sampleHost "ButtonXKeyCode" (num 13))))
             (JStr "TypeError") eq_refl).
  - exact (proj1 (proj2 (proj2 (proj2 (proj2 (proj2 (proj2 (proj2
             (resolveKeyCode_spec sampleHost "ButtonYKeyCode" (num 27))))))))) eq_refl).
Defined.

(** C7, as the code has it.  Every key code is resolved defensively:
    [resolveKeyCode] never throws.  It gives the fallback it was called
    with when the parameter is missing, when its numeric coercion is not
    finite (NaN, as for a string that is no numeric literal, or an
    infinity) and when [getParameter] throws; a value whose coercion is
    finite is kept as that number ([null], the empty string and [false]
    count as 0).  The fallback is the host's first shortcut [sc[0][0]] of
    the control when the binding has one that is neither [undefined] nor
    [null], and the hard-coded default in every other case: no binding, no
    [sc], an empty [sc], an empty first shortcut, a nullish first entry.
    So the whole [KEY_CODES] table is always built. *)
Theorem key_codes_resolved_defensively (h : Host) (name : string)
    (binding : option Keyboard) (hard : Z) :
  let fallback := fallbackKeyCode binding hard in
  let read := getParameter h pluginName name in
  (exists v, resolveKeyCode h name fallback = Normal v) /\
  (read = Normal JUndefined -> resolveKeyCode h name fallback = Normal fallback) /\
  (forall value, read = Normal value -> Number value = NaN ->
                 resolveKeyCode h name fallback = Normal fallback) /\
  (forall e, read = Throw e -> resolveKeyCode h name fallback = Normal fallback) /\
  (binding = None -> fallback = num hard) /\
  (forall kb, binding = Some kb -> sc kb = None -> fallback = num hard) /\
  (forall kb v r1 r2, binding = Some kb -> sc kb = Some ((v :: r1) :: r2) ->
                      fallback = nullish v (num hard)) /\
  (exists kc, KEY_CODES h = Normal kc) /\
  (forall value, read = Normal value -> isFinite (Number value) = false ->
                 resolveKeyCode h name fallback = Normal fallback) /\
  (forall value, read = Normal value -> isFinite (Number value) = true ->
                 resolveKeyCode h name fallback = Normal (JNum (Number value))) /\
  (forall kb, binding = Some kb -> sc kb = Some [] -> fallback = num hard) /\
  (forall kb r, binding = Some kb -> sc kb = Some ([] :: r) -> fallback = num hard) /\
  (forall kb v r1 r2, binding = Some kb -> sc kb = Some ((v :: r1) :: r2) ->
                      isNullish v = true -> fallback = num hard) /\
  (forall kb v r1 r2, binding = Some kb -> sc kb = Some ((v :: r1) :: r2) ->
                      isNullish v = false -> fallback = v) /\
  (fallback = num hard \/
   exists kb v r1 r2, binding = Some kb /\ sc kb = Some ((v :: r1) :: r2) /\
                      isNullish v = false /\ fallback = v).
Proof.
  intros fallback read. subst read. rewrite resolveKeyCode_cases.
  split; [by eexists|].
  split; [by intros ->|].
  split; [by intros value -> ->|].
  split; [by intros e ->|].
  split; [by intros ->|].
  split; [intros kb -> Hsc; subst fallback; simpl; by rewrite Hsc|].
  split; [intros kb v r1 r2 -> Hsc; subst fallback; simpl; by rewrite Hsc|].
  split; [apply KEY_CODES_total|].
  split; [by intros value -> ->|].
  split; [by intros value -> ->|].
  split; [intros kb -> Hsc; subst fallback; simpl; by rewrite Hsc|].
  split; [intros kb r -> Hsc; subst fallback; simpl; by rewrite Hsc|].
  split; [intros kb v r1 r2 -> Hsc Hv; subst fallback; simpl; rewrite Hsc; by destruct v|].
  split; [intros kb v r1 r2 -> Hsc Hv; subst fallback; simpl; rewrite Hsc; by destruct v|].
  subst fallback. unfold fallbackKeyCode.
  destruct binding as [[o]|]; [|by left].
  destruct o as [[|[|v r1] r2]|]; try (by left).
  destruct (isNullish v) eqn:Hv.
  - left. by destruct v.
  - right. exists (mkKeyboard (Some ((v :: r1) :: r2))), v, r1, r2.
    repeat split; try done. by destruct v.
Qed.

Lemma key_codes_resolved_defensively_witness :
  resolveKeyCode sampleHost "ButtonYKeyCode" (fallbackKeyCode None 27) = Normal (num 27) /\
  resolveKeyCode sampleHost "ActionKeyCode" (fallbackKeyCode None 13) = Normal (num 13) /\
  resolveKeyCode sampleHost "ButtonXKeyCode" (fallbackKeyCode None 13) = Normal (num 13) /\
  resolveKeyCode reboundHost "MoveUpKeyCode" (fallbackKeyCode (controls reboundHost "UpHero") 87)
    = Normal (num 38) /\
  resolveKeyCode throwingHost "MoveUpKeyCode" (fallbackKeyCode (Some (mkKeyboard None)) 87)
    = Normal (num 87) /\
  resolveKeyCode sampleHost "CancelKeyCode" (fallbackKeyCode (Some (mkKeyboard (Some []))) 27)
    = Normal (fallbackKeyCode (Some (mkKeyboard (Some []))) 27) /\
  fallbackKeyCode (Some (mkKeyboard (Some []))) 27 = num 27 /\
  fallbackKeyCode (Some (mkKeyboard (Some [[]; [num 8]]))) 27 = num 27 /\
  fallbackKeyCode (Some (mkKeyboard (Some [[JNull; num 8]]))) 27 = num 27 /\
  fallbackKeyCode (Some (mkKeyboard (Some [[num 8; num 9]]))) 27 = num 8 /\
  resolveKeyCode sampleHost "MoveDownKeyCode" (fallbackKeyCode None 83) = Normal (num 0).
Proof.
  split; [|split; [|split; [|split; [|split; [|split; [|split; [|split; [|split; [|split]]]]]]]]].
  - exact (proj1 (proj2 (key_codes_resolved_defensively sampleHost "ButtonYKeyCode" None 27))
             eq_refl).
  - exact (proj1 (proj2 (proj2 (key_codes_resolved_defensively sampleHost "ActionKeyCode" None 13)))
             (JStr "enter") eq_refl eq_refl).
  - exact (proj1 (proj2 (proj2 (proj2
             (key_codes_resolved_defensively sampleHost "ButtonXKeyCode" None 13))))
             (JStr "TypeError") eq_refl).
  - exact (proj1 (proj2 (key_codes_resolved_defensively reboundHost "MoveUpKeyCode"
                           (controls reboundHost "UpHero") 87)) eq_refl).
  - exact (proj1 (proj2 (proj2 (proj2
             (key_codes_resolved_defensively throwingHost "MoveUpKeyCode"
                (Some (mkKeyboard None)) 87))))
             (JStr "TypeError") eq_refl).
  - exact (proj1 (proj2 (proj2 (proj2 (proj2 (proj2 (proj2 (proj2 (proj2
             (key_codes_resolved_defensively sampleHost "CancelKeyCode"
                (Some (mkKeyboard (Some []))) 27)))))))))
             (JNum (Infinity false)) eq_refl eq_refl).
  - exact (proj1 (proj2 (proj2 (proj2 (proj2 (proj2 (proj2 (proj2 (proj2 (proj2 (proj2
             (key_codes_resolved_defensively sampleHost "CancelKeyCode"
                (Some (mkKeyboard (Some []))) 27)))))))))))
             (mkKeyboard (Some [])) eq_refl eq_refl).
  - exact (proj1 (proj2 (proj2 (proj2 (proj2 (proj2 (proj2 (proj2 (proj2 (proj2 (proj2 (proj2
             (key_codes_resolved_defensively sampleHost "CancelKeyCode"
                (Some (mkKeyboard (Some [[]; [num 8]]))) 27))))))))))))
             (mkKeyboard (Some [[]; [num 8]])) [[num 8]] eq_refl eq_refl).
  - exact (proj1 (proj2 (proj2 (proj2 (proj2 (proj2 (proj2 (proj2 (proj2 (proj2 (proj2 (proj2
             (proj2
             (key_codes_resolved_defensively sampleHost "CancelKeyCode"
                (Some (mkKeyboard (Some [[JNull; num 8]]))) 27)))))))))))))
             (mkKeyboard (Some [[JNull; num 8]])) JNull [num 8] [] eq_refl eq_refl eq_refl).
  - exact (proj1 (proj2 (proj2 (proj2 (proj2 (proj2 (proj2 (proj2 (proj2 (proj2 (proj2 (proj2
             (proj2 (proj2
             (key_codes_resolved_defensively sampleHost "CancelKeyCode"
                (Some (mkKeyboard (Some [[num 8; num 9]]))) 27))))))))))))))
             (mkKeyboard (Some [[num 8; num 9]])) (num 8) [num 9] [] eq_refl eq_refl eq_refl).
  - exact (proj1 (proj2 (proj2 (proj2 (proj2 (proj2 (proj2 (proj2 (proj2 (proj2
             (key_codes_resolved_defensively sampleHost "MoveDownKeyCode" None 83))))))))))
             JNull eq_refl eq_refl).
Defined.

(** C7, as stated, fails on the "Show Gamepad" flag: when the host's
    registry throws, the throw leaves the module's top level; when the
    parameter is missing, [showGamepad] is [undefined], no default standing
    in for it.  And a key code whose parameter is missing takes the host's
    binding, here 38, before the hard-coded 87. *)
Lemma showGamepad_read_unguarded :
  loadConfig throwingHost = Throw (JStr "TypeError") /\
  (exists kc, loadConfig reboundHost = Normal (JUndefined, kc) /\
             KeyCodes.up kc = num 38 /\ KeyCodes.up kc <> num 87) /\
  ~ (forall h, exists config, loadConfig h = Normal config).
Proof.
  split; [reflexivity|]. split; [eexists; repeat split; discriminate|].
  intros H. destruct (H throwingHost) as [config Hc]. discriminate.
Qed.

(** * Further properties of the code *)

(** ** Entries and timers in the states the module reaches *)

Lemma Live_frame (s s' : State) :
  timers s' = timers s -> activeRepeats s' = activeRepeats s -> Live s -> Live s'.
Proof.
  intros Ht Ha [He Hp]. split.
  - intros k rt. rewrite Ha, Ht. apply He.
  - intros id t. rewrite Ht. apply Hp.
Qed.

(** A handle held by [k]'s entry is a registered timer of key [k]. *)
Lemma Live_handle (s : State) (k id : Z) (rt : RepeatTimers) :
  Live s -> activeRepeats s !! k = Some rt ->
  (delay rt = Some id \/ interval rt = Some id) ->
  exists t, timers s !! id = Some t /\ callbackKey (t_cb t) = k.
Proof.
  intros [He _] Hrt Hid.
  destruct (He k rt Hrt) as (id' & t & Ht & [[-> Hcb]|[-> Hcb]]);
    simpl in Hid; destruct Hid as [[= <-]|[= <-]];
    exists t; (split; [done|]); by rewrite Hcb.
Qed.

Lemma clearRepeat_keeps_other (k id : Z) (t : Timer) (s : State) :
  Live s -> timers s !! id = Some t -> callbackKey (t_cb t) <> k ->
  timers (clearRepeat k s) !! id = Some t.
Proof.
  intros HL Ht Hk. apply clearRepeat_timers_Some. split; [done|].
  intros rt Hrt. split; intros Hid.
  - destruct (Live_handle s k id rt HL Hrt (or_introl Hid)) as (t' & Ht' & Hk').
    congruence.
  - destruct (Live_handle s k id rt HL Hrt (or_intror Hid)) as (t' & Ht' & Hk').
    congruence.
Qed.

Lemma clearRepeat_Live (k : Z) (s : State) : Live s -> Live (clearRepeat k s).
Proof.
  intros HL. pose proof HL as [He Hp]. split.
  - intros k' rt. rewrite clearRepeat_activeRepeats.
    intros [Hne Hrt]%lookup_delete_Some.
    destruct (He k' rt Hrt) as (id & t & Ht & Hshape).
    exists id, t. split; [|done].
    apply clearRepeat_keeps_other; [done | done |].
    destruct Hshape as [[_ Hcb]|[_ Hcb]]; rewrite Hcb; simpl; congruence.
  - intros id t [Ht _]%clearRepeat_timers_Some. exact (Hp _ _ Ht).
Qed.

Lemma pressKey_Live (k : Z) (s : State) : Inv s -> Live s -> Live (pressKey k s).
Proof.
  intros HI HL. destruct (isReady s) eqn:Hr; [|by rewrite pressKey_not_ready].
  rewrite (pressKey_ready k s Hr).
  pose proof (clearRepeat_Live k s HL) as [He Hp].
  pose proof (clearRepeat_Inv k s HI) as [_ Hfr _ _].
  destruct (clearRepeat_frame k s) as (_ & _ & _ & _ & _ & Hnt & _).
  rewrite clearRepeat_activeRepeats in He. rewrite Hnt in Hfr.
  split; simpl.
  - intros k' rt [[<- <-]|[Hne Hrt]]%lookup_insert_Some.
    + eexists _, _. split; [apply lookup_insert_eq|]. left. by split.
    + destruct (He k' rt Hrt) as (id & t & Ht & Hshape).
      exists id, t. split; [|done].
      rewrite lookup_insert_ne; [done|]. specialize (Hfr _ _ Ht). lia.
  - intros id t [[<- <-]|[Hne Ht]]%lookup_insert_Some; [done|]. exact (Hp _ _ Ht).
Qed.

Lemma releaseKey_Live (k : Z) (s : State) : Live s -> Live (releaseKey k s).
Proof.
  intros HL. destruct (isReady s) eqn:Hr; [|by rewrite releaseKey_not_ready].
  rewrite (releaseKey_ready k s Hr).
  apply (Live_frame (clearRepeat k s)); simpl.
  - done.
  - by rewrite clearRepeat_activeRepeats.
  - by apply clearRepeat_Live.
Qed.

Lemma fireTimer_Live (id : Z) (s : State) : Inv s -> Live s -> Live (fireTimer id s).
Proof.
  intros HI HL. unfold fireTimer.
  destruct (timers s !! id) as [t|] eqn:Ht; [|done].
  destruct (t_due t <=? now s); [|done].
  destruct HI as [Hnd Hfr Hdl Htk]. pose proof HL as [He Hp].
  destruct (t_cb t) as [k|k] eqn:Hcb.
  - destruct (Hdl _ _ _ Ht Hcb) as [-> Hek]. simpl. split; simpl.
    + intros k' rt [[<- <-]|[Hne Hrt]]%lookup_insert_Some.
      * eexists _, _. split; [apply lookup_insert_eq|]. right. by split.
      * destruct (He k' rt Hrt) as (id' & t' & Ht' & Hshape).
        exists id', t'. split; [|done].
        rewrite lookup_insert_ne; [|specialize (Hfr _ _ Ht'); lia].
        apply lookup_delete_Some. split; [|done]. intros <-.
        assert (t' = t) as -> by congruence.
        destruct Hshape as [[_ Hcb']|[_ Hcb']]; congruence.
    + intros id' t' [[<- <-]|[Hne [_ Ht']%lookup_delete_Some]]%lookup_insert_Some;
        [done | exact (Hp _ _ Ht')].
  - destruct (Htk _ _ _ Ht Hcb) as [-> Hek]. simpl.
    assert (Live (set_timers (<[id := mkTimer Interval (t_ms t) (now s + t_ms t) (RepeatTick k)]>
                                (timers s)) s)) as HL'.
    { split; simpl.
      - intros k' rt Hrt. destruct (He k' rt Hrt) as (id' & t' & Ht' & Hshape).
        destruct (decide (id' = id)) as [->|Hne].
        + assert (t' = t) as -> by congruence.
          eexists _, _. split; [apply lookup_insert_eq|]. simpl. by rewrite <- Hcb.
        + exists id', t'. split; [by rewrite lookup_insert_ne | done].
      - intros id' t' [[<- <-]|[Hne Ht']]%lookup_insert_Some; [|exact (Hp _ _ Ht')].
        simpl. specialize (Hp _ _ Ht). by rewrite Hcb in Hp. }
    destruct (isReady _ && includes _ k); [|done].
    by apply (Live_frame (set_timers (<[id := mkTimer Interval (t_ms t) (now s + t_ms t)
                                            (RepeatTick k)]> (timers s)) s)).
Qed.

Lemma handlePointerUp_Live (p : Z) (s : State) : Live s -> Live (handlePointerUp p s).
Proof.
  intros HL. unfold handlePointerUp. destruct (pointerToKey s !! p); [|done].
  apply releaseKey_Live. by apply (Live_frame s).
Qed.

Lemma documentPointerUp_Live (p : Z) (s : State) : Live s -> Live (documentPointerUp p s).
Proof.
  intros HL. unfold documentPointerUp. destruct (pointerToKey s !! p); [|done].
  apply releaseKey_Live. by apply (Live_frame s).
Qed.

Lemma step_Good (a : Action) (s : State) : Good s -> Good (step a s).
Proof.
  intros [HI HL]. split; [by apply step_Inv|].
  destruct a; simpl.
  - by apply pressKey_Live.
  - by apply releaseKey_Live.
  - by apply fireTimer_Live.
  - by apply (Live_frame s).
  - by apply (Live_frame s).
  - unfold hostKeyDown. destruct (includes (keysPressed s) keyCode); [done|].
    by apply (Live_frame s).
  - unfold hostKeyUp. destruct (negb _); [|done]. by apply (Live_frame s).
  - apply pressKey_Live; [by apply set_pointerToKey_Inv | by apply (Live_frame s)].
  - unfold dispatchPointerUp.
    assert (Live (if onButton then handlePointerUp pointerId s else s)) as HL'
      by (destruct onButton; [by apply handlePointerUp_Live | done]).
    induction listeners as [|n IH]; simpl; [done|].
    by apply documentPointerUp_Live.
  - by apply handlePointerUp_Live.
  - by apply handlePointerUp_Live.
Qed.

Lemma run_Good (l : list Action) (s : State) : Good s -> Good (run l s).
Proof.
  revert s. induction l as [|a l IH]; intros s HG; simpl; [done|].
  by apply IH, step_Good.
Qed.

Lemma initial_Good (rd ld : bool) (ks : list Z) : NoDup ks -> Good (initial rd ld ks).
Proof.
  intros Hnd. split; [by apply initial_Inv|].
  split; simpl; intros ? ?; rewrite lookup_empty; discriminate.
Qed.

(** X1.  Whatever the module, the browser and the host do, starting from the
    module's initial state: no key code ever has two timers registered, and
    every registered timer is held by the [activeRepeats] entry of its key,
    so that [clearRepeat] can reach it. *)
Theorem reachable_timers_held (l : list Action) (rd ld : bool) (ks : list Z) :
  NoDup ks ->
  let s := run l (initial rd ld ks) in
  (forall id1 id2 t1 t2,
      timers s !! id1 = Some t1 -> timers s !! id2 = Some t2 ->
      callbackKey (t_cb t1) = callbackKey (t_cb t2) -> id1 = id2) /\
  (forall id t,
      timers s !! id = Some t ->
      exists rt, activeRepeats s !! callbackKey (t_cb t) = Some rt /\
                 (delay rt = Some id \/ interval rt = Some id)).
Proof.
  intros Hnd s. assert (Inv s) as [_ _ Hdl Htk] by (by apply run_Inv, initial_Inv).
  assert (forall id t, timers s !! id = Some t ->
            exists rt, activeRepeats s !! callbackKey (t_cb t) = Some rt /\
                       (delay rt = Some id \/ interval rt = Some id) /\
                       (delay rt = None \/ interval rt = None)) as Hheld.
  { intros id t Ht. destruct (t_cb t) as [k|k] eqn:Hcb; simpl.
    - destruct (Hdl _ _ _ Ht Hcb) as [_ He]. eexists. split; [exact He|]. simpl. tauto.
    - destruct (Htk _ _ _ Ht Hcb) as [_ He]. eexists. split; [exact He|]. simpl. tauto. }
  split.
  - intros id1 id2 t1 t2 Ht1 Ht2 Hk.
    destruct (Hheld _ _ Ht1) as (rt1 & He1 & Hh1 & Hn1).
    destruct (Hheld _ _ Ht2) as (rt2 & He2 & Hh2 & Hn2).
    rewrite Hk in He1. assert (rt1 = rt2) as -> by congruence.
    destruct Hh1 as [Hh1|Hh1], Hh2 as [Hh2|Hh2], Hn1 as [Hn1|Hn1]; congruence.
  - intros id t Ht. destruct (Hheld _ _ Ht) as (rt & He & Hh & _). by exists rt.
Qed.

Lemma reachable_timers_held_witness :
  let s := run [PointerDown 13 7; Elapse 180; Fire 1; Press 65] (initial true false [87]) in
  NoDup [87] /\
  timers s !! 2 = Some (mkTimer Interval 60 240 (RepeatTick 13)) /\
  exists rt, activeRepeats s !! 13 = Some rt /\ (delay rt = Some 2 \/ interval rt = Some 2).
Proof.
  set (s := run [PointerDown 13 7; Elapse 180; Fire 1; Press 65] (initial true false [87])).
  assert (NoDup [87]) as Hnd by apply NoDup_singleton.
  assert (timers s !! 2 = Some (mkTimer Interval 60 240 (RepeatTick 13))) as Ht
    by (vm_compute; reflexivity).
  split; [exact Hnd|]. split; [exact Ht|].
  exact (proj2 (reachable_timers_held
                  [PointerDown 13 7; Elapse 180; Fire 1; Press 65] true false [87] Hnd)
               2 _ Ht).
Defined.

(** X2.  In every state reached from the initial one, an [activeRepeats]
    entry holds exactly one handle, never both and never neither: either the
    delay handle, of a registered 180 ms timeout that carries the delay
    callback of that key, or the interval handle, of a registered 60 ms
    interval that carries its tick. *)
Theorem reachable_entries_live (l : list Action) (rd ld : bool) (ks : list Z) :
  NoDup ks ->
  let s := run l (initial rd ld ks) in
  forall k rt,
    activeRepeats s !! k = Some rt ->
    (exists id due, rt = mkRepeat (Some id) None /\
       timers s !! id = Some (mkTimer Timeout 180 due (DelayElapsed k))) \/
    (exists id due, rt = mkRepeat None (Some id) /\
       timers s !! id = Some (mkTimer Interval 60 due (RepeatTick k))).
Proof.
  intros Hnd s k rt Hrt.
  assert (Good s) as [[_ _ Hdl Htk] [He Hp]] by (by apply run_Good, initial_Good).
  destruct (He k rt Hrt) as (id & t & Ht & [[-> Hcb]|[-> Hcb]]).
  - left. exists id, (t_due t). split; [done|].
    destruct (Hdl _ _ _ Ht Hcb) as [Hk _]. specialize (Hp _ _ Ht). rewrite Hcb in Hp.
    rewrite Ht. f_equal. destruct t; simpl in *. by subst.
  - right. exists id, (t_due t). split; [done|].
    destruct (Htk _ _ _ Ht Hcb) as [Hk _]. specialize (Hp _ _ Ht). rewrite Hcb in Hp.
    rewrite Ht. f_equal. destruct t; simpl in *. by subst.
Qed.

Lemma reachable_entries_live_witness :
  let s := run [PointerDown 13 7; Elapse 180; Fire 1; Press 65] (initial true false [87]) in
  NoDup [87] /\
  activeRepeats s !! 65 = Some (mkRepeat (Some 3) None) /\
  ((exists id due, mkRepeat (Some 3) None = mkRepeat (Some id) None /\
      timers s !! id = Some (mkTimer Timeout 180 due (DelayElapsed 65))) \/
   (exists id due, mkRepeat (Some 3) None = mkRepeat None (Some id) /\
      timers s !! id = Some (mkTimer Interval 60 due (RepeatTick 65)))).
Proof.
  set (s := run [PointerDown 13 7; Elapse 180; Fire 1; Press 65] (initial true false [87])).
  assert (NoDup [87]) as Hnd by apply NoDup_singleton.
  assert (activeRepeats s !! 65 = Some (mkRepeat (Some 3) None)) as He
    by (vm_compute; reflexivity).
  split; [exact Hnd|]. split; [exact He|].
  exact (reachable_entries_live
           [PointerDown 13 7; Elapse 180; Fire 1; Press 65] true false [87] Hnd 65 _ He).
Defined.

(** ** A key without a timer is not repeated *)

Lemma Quiet_refl (k : Z) (s : State) : timersFor k s = ∅ -> Quiet k s s.
Proof.
  intros Ht. split; [done|]. exists []. split; [by rewrite app_nil_r|].
  intros []%elem_of_nil.
Qed.

Lemma Quiet_trans (k : Z) (s1 s2 s3 : State) : Quiet k s1 s2 -> Quiet k s2 s3 -> Quiet k s1 s3.
Proof.
  intros [_ (c1 & H1 & N1)] [Ht (c2 & H2 & N2)]. split; [done|].
  exists (c1 ++ c2). split; [by rewrite H2, H1, app_assoc|].
  intros [?|?]%elem_of_app; tauto.
Qed.

Lemma Quiet_frame (k : Z) (s s' : State) :
  timers s' = timers s -> hostLog s' = hostLog s -> timersFor k s = ∅ -> Quiet k s s'.
Proof.
  intros Ht Hl He. split.
  - unfold timersFor in *. by rewrite Ht.
  - exists []. split; [by rewrite app_nil_r|]. intros []%elem_of_nil.
Qed.

Lemma releaseKey_Quiet (k k' : Z) (s : State) :
  timersFor k s = ∅ -> Quiet k s (releaseKey k' s).
Proof.
  intros He. destruct (isReady s) eqn:Hr;
    [|rewrite releaseKey_not_ready by done; by apply Quiet_refl].
  rewrite (releaseKey_ready k' s Hr). split; simpl.
  - apply timersFor_empty. simpl. intros id t [Ht _]%clearRepeat_timers_Some.
    by apply (proj1 (timersFor_empty k s) He id).
  - eexists. split; [reflexivity|]. intros Hin%list_elem_of_singleton. discriminate.
Qed.

Lemma pressKey_Quiet (k k' : Z) (s : State) :
  k' <> k -> timersFor k s = ∅ -> Quiet k s (pressKey k' s).
Proof.
  intros Hne He. destruct (isReady s) eqn:Hr;
    [|rewrite pressKey_not_ready by done; by apply Quiet_refl].
  rewrite (pressKey_ready k' s Hr). split; simpl.
  - apply timersFor_empty. simpl.
    intros id t [[<- <-]|[_ [Ht _]%clearRepeat_timers_Some]]%lookup_insert_Some.
    + simpl. done.
    + by apply (proj1 (timersFor_empty k s) He id).
  - eexists. split; [reflexivity|].
    intros [Hin|Hin%list_elem_of_singleton]%elem_of_app; [|congruence].
    destruct (includes (keysPressed s) k'); [by apply elem_of_nil in Hin|].
    apply list_elem_of_singleton in Hin. discriminate.
Qed.

Lemma fireTimer_Quiet (k id : Z) (s : State) :
  timersFor k s = ∅ -> Quiet k s (fireTimer id s).
Proof.
  intros He. pose proof (proj1 (timersFor_empty k s) He) as Hk.
  unfold fireTimer. destruct (timers s !! id) as [t|] eqn:Ht; [|by apply Quiet_refl].
  destruct (t_due t <=? now s); [|by apply Quiet_refl].
  specialize (Hk id t Ht) as Hkt.
  destruct (t_cb t) as [k'|k'] eqn:Hcb; simpl in Hkt.
  - assert (Quiet k s (runCallback (DelayElapsed k') (set_timers (delete id (timers s)) s))) as HQ.
    { split; simpl.
      - apply timersFor_empty. simpl.
        intros id' t' [[<- <-]|[_ [_ Ht']%lookup_delete_Some]]%lookup_insert_Some;
          [done | by apply (Hk id')].
      - exists []. split; [by rewrite app_nil_r|]. intros []%elem_of_nil. }
    destruct (t_kind t); [done|].
    split; simpl.
    + apply timersFor_empty. simpl.
      intros id' t' [[<- <-]|[_ [[<- <-]|[_ Ht']]%lookup_insert_Some]]%lookup_insert_Some;
        [done | done | by apply (Hk id')].
    + exists []. split; [by rewrite app_nil_r|]. intros []%elem_of_nil.
  - assert (forall tm,
              (forall id' t', tm !! id' = Some t' -> callbackKey (t_cb t') <> k) ->
              Quiet k s (runCallback (RepeatTick k') (set_timers tm s))) as HQ.
    { intros tm Htm. simpl.
      destruct (isReady (set_timers tm s) && includes (keysPressed s) k'); split; simpl.
      - by apply timersFor_empty.
      - eexists. split; [reflexivity|]. intros Hin%list_elem_of_singleton. congruence.
      - by apply timersFor_empty.
      - exists []. split; [by rewrite app_nil_r|]. intros []%elem_of_nil. }
    destruct (t_kind t); apply HQ.
    + intros id' t' [_ Ht']%lookup_delete_Some. by apply (Hk id').
    + intros id' t' [[<- <-]|[_ Ht']]%lookup_insert_Some; [done | by apply (Hk id')].
Qed.

Lemma handlePointerUp_Quiet (k p : Z) (s : State) :
  timersFor k s = ∅ -> Quiet k s (handlePointerUp p s).
Proof.
  intros He. unfold handlePointerUp.
  destruct (pointerToKey s !! p) as [k'|]; [|by apply Quiet_refl].
  apply (releaseKey_Quiet k k' (set_pointerToKey (delete p (pointerToKey s)) s)), He.
Qed.

Lemma documentPointerUp_Quiet (k p : Z) (s : State) :
  timersFor k s = ∅ -> Quiet k s (documentPointerUp p s).
Proof.
  intros He. unfold documentPointerUp.
  destruct (pointerToKey s !! p) as [k'|]; [|by apply Quiet_refl].
  apply (releaseKey_Quiet k k' (set_pointerToKey (delete p (pointerToKey s)) s)), He.
Qed.

Lemma step_Quiet (k : Z) (a : Action) (s : State) :
  timersFor k s = ∅ -> pressesKey k a = false -> Quiet k s (step a s).
Proof.
  intros He Ha. destruct a; simpl in *.
  - apply pressKey_Quiet; [by apply Z.eqb_neq | done].
  - by apply releaseKey_Quiet.
  - by apply fireTimer_Quiet.
  - by apply Quiet_frame.
  - by apply Quiet_frame.
  - unfold hostKeyDown. destruct (includes (keysPressed s) keyCode);
      [by apply Quiet_refl | by apply Quiet_frame].
  - unfold hostKeyUp. destruct (negb _); [by apply Quiet_frame | by apply Quiet_refl].
  - apply (pressKey_Quiet k keyCode (set_pointerToKey _ s)); [by apply Z.eqb_neq | done].
  - unfold dispatchPointerUp.
    assert (Quiet k s (if onButton then handlePointerUp pointerId s else s)) as HQ
      by (destruct onButton; [by apply handlePointerUp_Quiet | by apply Quiet_refl]).
    induction listeners as [|n IH]; simpl; [done|].
    eapply Quiet_trans; [exact IH|]. apply documentPointerUp_Quiet, IH.
  - by apply handlePointerUp_Quiet.
  - by apply handlePointerUp_Quiet.
Qed.

Lemma run_Quiet (k : Z) (l : list Action) (s : State) :
  timersFor k s = ∅ -> Forall (fun a => pressesKey k a = false) l -> Quiet k s (run l s).
Proof.
  revert s. induction l as [|a l IH]; intros s He Hl; simpl; [by apply Quiet_refl|].
  apply Forall_cons in Hl as [Ha Hl].
  pose proof (step_Quiet k a s He Ha) as HQ.
  eapply Quiet_trans; [exact HQ|]. apply IH; [apply HQ | done].
Qed.

(** X3.  Once [releaseKey k] has run in a ready state, the host is not told
    a repeat of [k] again, whatever timers fire, however much time passes
    and whatever else is pressed or released, until [k] itself is pressed
    again; and during all that no timer for [k] is registered. *)
Theorem no_repeat_after_release (k : Z) (l : list Action) (s : State) :
  Inv s -> isReady s = true ->
  Forall (fun a => pressesKey k a = false) l ->
  let s1 := releaseKey k s in
  (onKeyPressedAndRepeat k ∉ callsSince s1 (run l s1)) /\
  timersFor k (run l s1) = ∅.
Proof.
  intros HI Hr Hl s1.
  destruct (releaseKey_ready_clears k s HI Hr) as (_ & _ & He).
  destruct (run_Quiet k l s1 He Hl) as [Ht (calls & Hlog & Hn)].
  split; [|done]. unfold callsSince. by rewrite Hlog, drop_app_length.
Qed.

Lemma no_repeat_after_release_witness :
  let s := run [Press 13; Elapse 100] (initial true false []) in
  let l := [Elapse 500; Fire 1; Fire 2; Press 65; Elapse 180; Fire 2; Elapse 60; Fire 3] in
  Inv s /\ isReady s = true /\
  Forall (fun a => pressesKey 13 a = false) l /\
  callsSince (releaseKey 13 s) (run l (releaseKey 13 s))
    = [onKeyPressed 65; onKeyPressedAndRepeat 65; onKeyPressedAndRepeat 65] /\
  (onKeyPressedAndRepeat 13 ∉ callsSince (releaseKey 13 s) (run l (releaseKey 13 s))).
Proof.
  set (s := run [Press 13; Elapse 100] (initial true false [])).
  set (l := [Elapse 500; Fire 1; Fire 2; Press 65; Elapse 180; Fire 2; Elapse 60; Fire 3]).
  assert (Inv s) as HI by (apply run_Inv, initial_Inv, NoDup_nil; exact I).
  assert (Forall (fun a => pressesKey 13 a = false) l) as Hl
    by (repeat constructor).
  split; [exact HI|]. split; [reflexivity|]. split; [exact Hl|].
  split; [vm_compute; reflexivity|].
  exact (proj1 (no_repeat_after_release 13 l s HI eq_refl Hl)).
Defined.

(** ** Holding a key *)

(** A ready state in which the 60 ms interval [i] ticks for a pressed [k]
    and will be due within [ms]: one more tick keeps all that and tells
    the host one repeat. *)
Lemma tick_once (k i ms due : Z) (s : State) :
  REPEAT_INTERVAL <= ms ->
  isReady s = true -> k ∈ keysPressed s ->
  timers s !! i = Some (mkTimer Interval REPEAT_INTERVAL due (RepeatTick k)) ->
  due <= now s + ms ->
  let s' := run [Elapse ms; Fire i] s in
  isReady s' = true /\ keysPressed s' = keysPressed s /\
  activeRepeats s' = activeRepeats s /\
  hostLog s' = hostLog s ++ [onKeyPressedAndRepeat k] /\
  (exists due', timers s' !! i = Some (mkTimer Interval REPEAT_INTERVAL due' (RepeatTick k)) /\
                due' <= now s' + ms) /\
  (forall j, j <> i -> timers s' !! j = timers s !! j).
Proof.
  intros Hms Hr Hk Ht Hdue s'. subst s'. unfold REPEAT_INTERVAL in *.
  apply includes_elem_of in Hk.
  simpl. unfold fireTimer. simpl. rewrite Ht. simpl.
  destruct (Z.leb_spec due (now s + Z.max 0 ms)) as [_|Hlt]; [|lia].
  unfold isReady in *. simpl. rewrite Hr, Hk. simpl.
  repeat split; try done.
  - eexists. split; [apply lookup_insert_eq|]. lia.
  - intros j Hj. by rewrite lookup_insert_ne.
Qed.

Lemma ticks_repeat (n : nat) (k i ms : Z) :
  REPEAT_INTERVAL <= ms ->
  forall (s : State) (due : Z),
  isReady s = true -> k ∈ keysPressed s ->
  timers s !! i = Some (mkTimer Interval REPEAT_INTERVAL due (RepeatTick k)) ->
  due <= now s + ms ->
  let s' := run (ticks n ms i) s in
  hostLog s' = hostLog s ++ replicate n (onKeyPressedAndRepeat k) /\
  keysPressed s' = keysPressed s /\ activeRepeats s' = activeRepeats s /\
  (exists due', timers s' !! i = Some (mkTimer Interval REPEAT_INTERVAL due' (RepeatTick k))) /\
  (forall j, j <> i -> timers s' !! j = timers s !! j).
Proof.
  intros Hms. induction n as [|n IH]; intros s due Hr Hk Ht Hdue.
  - simpl. rewrite app_nil_r. repeat split; try done. by eexists.
  - destruct (tick_once k i ms due s Hms Hr Hk Ht Hdue)
      as (Hr1 & Hk1 & Ha1 & Hl1 & (due1 & Ht1 & Hdue1) & Ho1).
    set (s1 := run [Elapse ms; Fire i] s) in *.
    assert (k ∈ keysPressed s1) as Hk1' by (by rewrite Hk1).
    destruct (IH s1 due1 Hr1 Hk1' Ht1 Hdue1) as (Hl & Hkp & Ha & Hti & Ho).
    change (run (ticks (S n) ms i) s) with (run (ticks n ms i) s1). cbv zeta.
    rewrite Hl, Hl1, Hkp, Hk1, Ha, Ha1, <- app_assoc. repeat split; try done.
    intros j Hj. by rewrite Ho, Ho1.
Qed.

(** X4.  A key pressed in a ready state and held: once the 180 ms delay has
    passed and its timer fires, the delay timer is gone and a 60 ms interval
    holds the key's entry; each of its ticks, while the host stays ready and
    the key pressed, tells the host one repeat, so [n] ticks give [n]
    repeats after the one of the press itself. *)
Theorem hold_repeats (n : nat) (k dt ms : Z) (s : State) :
  isReady s = true -> REPEAT_DELAY <= dt -> REPEAT_INTERVAL <= ms ->
  let d := nextTimer s in
  let s' := run (Press k :: Elapse dt :: Fire d :: ticks n ms (d + 1)) s in
  callsSince s s' =
    (if includes (keysPressed s) k then [] else [onKeyPressed k]) ++
    onKeyPressedAndRepeat k :: replicate n (onKeyPressedAndRepeat k) /\
  activeRepeats s' !! k = Some (mkRepeat None (Some (d + 1))) /\
  timers s' !! d = None /\
  (exists due, timers s' !! (d + 1) = Some (mkTimer Interval 60 due (RepeatTick k))) /\
  (k ∈ keysPressed s').
Proof.
  intros Hr Hdt Hms d s'.
  set (s3 := run [Press k; Elapse dt; Fire d] s).
  assert (s' = run (ticks n ms (d + 1)) s3) as -> by reflexivity.
  unfold REPEAT_DELAY in Hdt.
  assert (isReady s3 = true /\
          hostLog s3 = hostLog s ++ (if includes (keysPressed s) k then [] else [onKeyPressed k])
                                 ++ [onKeyPressedAndRepeat k] /\
          (k ∈ keysPressed s3) /\
          activeRepeats s3 !! k = Some (mkRepeat None (Some (d + 1))) /\
          timers s3 !! d = None /\
          timers s3 !! (d + 1) = Some (mkTimer Interval REPEAT_INTERVAL
                                         (now s + Z.max 0 dt + REPEAT_INTERVAL) (RepeatTick k)) /\
          now s3 = now s + Z.max 0 dt) as (Hr3 & Hl3 & Hk3 & Ha3 & Hd3 & Hi3 & Hn3).
  { subst s3 d. simpl. rewrite (pressKey_ready k s Hr). unfold fireTimer. simpl.
    rewrite lookup_insert_eq. simpl. unfold REPEAT_DELAY.
    destruct (Z.leb_spec (now s + 180) (now s + Z.max 0 dt)) as [_|Hlt]; [|lia].
    simpl. repeat split; try done.
    - destruct (includes (keysPressed s) k) eqn:Hin; [by apply includes_elem_of|].
      apply elem_of_app. right. by apply list_elem_of_singleton.
    - apply lookup_insert_eq.
    - rewrite lookup_insert_ne by lia. apply lookup_delete_eq.
    - apply lookup_insert_eq. }
  assert (now s + Z.max 0 dt + REPEAT_INTERVAL <= now s3 + ms) as Hdue
    by (rewrite Hn3; lia).
  destruct (ticks_repeat n k (d + 1) ms Hms s3 _ Hr3 Hk3 Hi3 Hdue)
    as (Hl & Hkp & Ha & Hti & Ho).
  cbv zeta in *. unfold callsSince. rewrite Hl, Hl3, Hkp, Ha, Ho by lia.
  rewrite <- !app_assoc, drop_app_length. repeat split; try done.
Qed.

Lemma hold_repeats_witness :
  isReady (initial true false [87]) = true /\ REPEAT_DELAY <= 200 /\ REPEAT_INTERVAL <= 60 /\
  callsSince (initial true false [87])
    (run (Press 65 :: Elapse 200 :: Fire 1 :: ticks 3 60 2) (initial true false [87]))
  = [onKeyPressed 65; onKeyPressedAndRepeat 65; onKeyPressedAndRepeat 65;
     onKeyPressedAndRepeat 65; onKeyPressedAndRepeat 65].
Proof.
  assert (REPEAT_DELAY <= 200) as H1 by (unfold REPEAT_DELAY; lia).
  assert (REPEAT_INTERVAL <= 60) as H2 by (unfold REPEAT_INTERVAL; lia).
  split; [reflexivity|]. split; [exact H1|]. split; [exact H2|].
  exact (proj1 (hold_repeats 3 65 200 60 (initial true false [87]) eq_refl H1 H2)).
Defined.

(** ** What a release does to [keysPressed] *)

Lemma splice1_removeFirst (l : list Z) (k : Z) :
  (if indexOf l k =? -1 then l else splice1 l (indexOf l k)) = removeFirst k l.
Proof.
  induction l as [|x r IH]; [done|].
  rewrite splice1_indexOf_cons. simpl.
  pose proof (indexOf_range r k) as Hr.
  destruct (Z.eqb_spec x k) as [->|Hne]; [done|].
  destruct (Z.eqb_spec (indexOf r k) (-1)) as [He|He].
  - simpl. by rewrite <- IH.
  - destruct (Z.eqb_spec (indexOf r k + 1) (-1)) as [Hc|_]; [lia|]. by rewrite <- IH.
Qed.

Lemma removeFirst_absent (k : Z) (l : list Z) : k ∉ l -> removeFirst k l = l.
Proof.
  induction l as [|x r IH]; [done|]. intros [Hx Hr]%not_elem_of_cons. simpl.
  destruct (Z.eqb_spec x k) as [->|_]; [done|]. by rewrite IH.
Qed.

Lemma removeFirst_app_absent (k : Z) (l : list Z) : k ∉ l -> removeFirst k (l ++ [k]) = l.
Proof.
  induction l as [|x r IH]; simpl.
  - intros _. by rewrite Z.eqb_refl.
  - intros [Hx Hr]%not_elem_of_cons.
    destruct (Z.eqb_spec x k) as [->|_]; [done|]. by rewrite IH.
Qed.

Lemma removeFirst_other (k k' : Z) (l : list Z) :
  k' <> k -> k' ∈ removeFirst k l <-> k' ∈ l.
Proof.
  intros Hne. induction l as [|x r IH]; [done|]. simpl.
  destruct (Z.eqb_spec x k) as [->|Hx].
  - rewrite elem_of_cons. split; [by right | intros [?|?]; [congruence | done]].
  - by rewrite !elem_of_cons, IH.
Qed.

(** X5.  A ready [releaseKey k] takes the first occurrence of [k], and only
    that, out of [keysPressed], leaving the other keys in their order; when
    [k] is not pressed the list stays as it is.  Either way the host is told
    [onKeyReleased k], exactly once. *)
Theorem release_removes_first (k : Z) (s : State) :
  isReady s = true ->
  keysPressed (releaseKey k s) = removeFirst k (keysPressed s) /\
  (k ∉ keysPressed s -> keysPressed (releaseKey k s) = keysPressed s) /\
  callsSince s (releaseKey k s) = [onKeyReleased k].
Proof.
  intros Hr. rewrite (releaseKey_ready k s Hr). unfold callsSince. simpl.
  rewrite splice1_removeFirst, drop_app_length.
  repeat split. apply removeFirst_absent.
Qed.

Lemma release_removes_first_witness :
  isReady (initial true false [87; 13; 65; 13]) = true /\
  keysPressed (releaseKey 13 (initial true false [87; 13; 65; 13])) = [87; 65; 13] /\
  callsSince (initial true false [87]) (releaseKey 13 (initial true false [87]))
    = [onKeyReleased 13].
Proof.
  split; [reflexivity|]. split.
  - exact (proj1 (release_removes_first 13 (initial true false [87; 13; 65; 13]) eq_refl)).
  - exact (proj2 (proj2 (release_removes_first 13 (initial true false [87]) eq_refl))).
Defined.

(** X6.  A press and its release are a round trip: in a ready state of the
    module where [k] is not pressed and has no entry, [pressKey k] then
    [releaseKey k] give the state back as it was, apart from the three
    calls made to the host and the one timer handle used up. *)
Theorem press_release_round_trip (k : Z) (s : State) :
  Inv s -> isReady s = true -> k ∉ keysPressed s -> activeRepeats s !! k = None ->
  releaseKey k (pressKey k s) =
  set_nextTimer (nextTimer s + 1)
    (set_hostLog (hostLog s ++ [onKeyPressed k; onKeyPressedAndRepeat k; onKeyReleased k]) s).
Proof.
  intros HI Hr Hk He.
  assert (isReady (pressKey k s) = true) as Hr1 by (by rewrite pressKey_isReady).
  rewrite (releaseKey_ready k (pressKey k s) Hr1), splice1_removeFirst.
  assert (timers (clearRepeat k (pressKey k s)) = timers s) as ->.
  { apply map_eq. intros id. apply option_eq. intros t.
    rewrite clearRepeat_timers_Some. rewrite (pressKey_ready k s Hr). simpl.
    rewrite lookup_insert_eq.
    assert (clearRepeat k s = s) as -> by (unfold clearRepeat; by rewrite He).
    split.
    - intros [[[<- _]|[_ Ht]]%lookup_insert_Some Hrt]; [|done].
      destruct (Hrt _ eq_refl) as [Hd _]. by simpl in Hd.
    - intros Ht. split.
      + apply lookup_insert_Some. right. split; [|done].
        pose proof (inv_fresh s HI id t Ht). lia.
      + intros rt [= <-]. simpl. split; [|done].
        pose proof (inv_fresh s HI id t Ht). intros [= ?]. lia. }
  rewrite (pressKey_ready k s Hr). simpl.
  apply includes_false in Hk. rewrite Hk.
  apply includes_false in Hk. rewrite (removeFirst_app_absent k _ Hk).
  rewrite delete_insert_eq, delete_delete_eq, (delete_id _ _ He), <- app_assoc.
  by destruct s.
Qed.

Lemma press_release_round_trip_witness :
  let s := run [Press 65] (initial true false [87]) in
  Inv s /\ isReady s = true /\ (13 ∉ keysPressed s) /\ activeRepeats s !! 13 = None /\
  keysPressed (releaseKey 13 (pressKey 13 s)) = [87; 65] /\
  timers (releaseKey 13 (pressKey 13 s)) = timers s.
Proof.
  set (s := run [Press 65] (initial true false [87])).
  assert (Inv s) as HI by (apply run_Inv, initial_Inv, NoDup_singleton).
  assert (13 ∉ keysPressed s) as Hk by (apply includes_false; reflexivity).
  assert (activeRepeats s !! 13 = None) as He by (vm_compute; reflexivity).
  split; [exact HI|]. split; [reflexivity|]. split; [exact Hk|]. split; [exact He|].
  rewrite (press_release_round_trip 13 s HI eq_refl Hk He). split; reflexivity.
Defined.

(** ** Keys do not interfere *)

Lemma timersFor_ext (k : Z) (s s' : State) :
  (forall id t, callbackKey (t_cb t) = k ->
                timers s' !! id = Some t <-> timers s !! id = Some t) ->
  timersFor k s' = timersFor k s.
Proof.
  intros H. unfold timersFor. apply map_eq. intros id. apply option_eq. intros t.
  rewrite !map_lookup_filter_Some. simpl. split; intros [Ht Hk]; (split; [|done]); by apply H.
Qed.

(** X7.  Pressing or releasing [k] leaves every other key code [k'] alone,
    in any state the module can be in: [k'] is pressed after exactly when it
    was before, its [activeRepeats] entry is the same and so are its
    timers. *)
Theorem other_keys_untouched (k k' : Z) (s : State) :
  Good s -> k' <> k ->
  ((k' ∈ keysPressed (pressKey k s) <-> k' ∈ keysPressed s) /\
   activeRepeats (pressKey k s) !! k' = activeRepeats s !! k' /\
   timersFor k' (pressKey k s) = timersFor k' s) /\
  ((k' ∈ keysPressed (releaseKey k s) <-> k' ∈ keysPressed s) /\
   activeRepeats (releaseKey k s) !! k' = activeRepeats s !! k' /\
   timersFor k' (releaseKey k s) = timersFor k' s).
Proof.
  intros [HI HL] Hne.
  assert (forall id t, callbackKey (t_cb t) = k' ->
            timers (clearRepeat k s) !! id = Some t <-> timers s !! id = Some t) as Hclear.
  { intros id t Hk. split; [by intros [Ht _]%clearRepeat_timers_Some|].
    intros Ht. apply clearRepeat_keeps_other; [done | done | congruence]. }
  destruct (isReady s) eqn:Hr;
    [|rewrite pressKey_not_ready, releaseKey_not_ready by done; tauto].
  rewrite (pressKey_ready k s Hr), (releaseKey_ready k s Hr). split; simpl.
  - split; [|split].
    + destruct (includes (keysPressed s) k); [done|].
      rewrite elem_of_app, list_elem_of_singleton. tauto.
    + rewrite lookup_insert_ne by done. by rewrite lookup_delete_ne.
    + apply timersFor_ext. simpl. intros id t Hk. rewrite <- (Hclear id t Hk). split.
      * intros [[<- <-]|[_ Ht]]%lookup_insert_Some; [simpl in Hk; congruence | done].
      * intros Ht. apply lookup_insert_Some. right. split; [|done].
        apply clearRepeat_timers_Some in Ht as [Ht _].
        pose proof (inv_fresh s HI id t Ht). lia.
  - split; [|split].
    + rewrite splice1_removeFirst. by apply removeFirst_other.
    + by rewrite lookup_delete_ne.
    + apply timersFor_ext. simpl. intros id t Hk. by apply Hclear.
Qed.

Lemma other_keys_untouched_witness :
  let s := run [PointerDown 87 1; PointerDown 65 2; Elapse 180; Fire 2] (initial true false []) in
  Good s /\ 65 <> 87 /\
  keysPressed (releaseKey 87 s) = [65] /\
  timersFor 65 (releaseKey 87 s) = timersFor 65 s /\
  activeRepeats (releaseKey 87 s) !! 65 = Some (mkRepeat None (Some 3)).
Proof.
  set (s := run [PointerDown 87 1; PointerDown 65 2; Elapse 180; Fire 2] (initial true false [])).
  assert (Good s) as HG by (apply run_Good, initial_Good, NoDup_nil; exact I).
  assert (65 <> 87) as Hne by lia.
  split; [exact HG|]. split; [exact Hne|]. split; [vm_compute; reflexivity|].
  split; [|vm_compute; reflexivity].
  exact (proj2 (proj2 (proj2 (other_keys_untouched 87 65 s HG Hne)))).
Defined.

(** ** Pointers *)







(** X9.  A pointer that goes down while the host is not ready is tracked all
    the same, although nothing is pressed: no key is added, no timer armed,
    no call made.  When it goes up after the host has become ready, the host
    is told [onKeyReleased] for a key it was never told was pressed. *)
Theorem pointer_down_not_ready_is_tracked (k p : Z) (s : State) :
  isReady s = false ->
  let s1 := handlePointerDown k p s in
  pointerToKey s1 !! p = Some k /\
  keysPressed s1 = keysPressed s /\ timers s1 = timers s /\
  activeRepeats s1 = activeRepeats s /\ callsSince s s1 = [] /\
  callsSince s (handlePointerUp p (step (HostReady true false) s1)) = [onKeyReleased k] /\
  keysPressed (handlePointerUp p (step (HostReady true false) s1)) = removeFirst k (keysPressed s).
Proof.
  intros Hr s1. subst s1. unfold handlePointerDown.
  rewrite pressKey_not_ready by exact Hr. simpl. rewrite lookup_insert_eq.
  unfold callsSince, handlePointerUp. simpl. rewrite lookup_insert_eq, drop_all.
  set (s' := set_pointerToKey _ _).
  assert (isReady s' = true) as Hr' by reflexivity.
  rewrite (releaseKey_ready k s' Hr'). simpl.
  by rewrite drop_app_length, splice1_removeFirst.
Qed.

Lemma pointer_down_not_ready_is_tracked_witness :
  isReady (initial true true []) = false /\
  pointerToKey (handlePointerDown 13 7 (initial true true [])) !! 7 = Some 13 /\
  callsSince (initial true true [])
    (handlePointerUp 7 (step (HostReady true false) (handlePointerDown 13 7 (initial true true []))))
  = [onKeyReleased 13].
Proof.
  split; [reflexivity|]. split.
  - exact (proj1 (pointer_down_not_ready_is_tracked 13 7 (initial true true []) eq_refl)).
  - exact (proj1 (proj2 (proj2 (proj2 (proj2 (proj2
      (pointer_down_not_ready_is_tracked 13 7 (initial true true []) eq_refl))))))).
Defined.

(** ** What mounting builds *)

Lemma pointerDownKeys_unfold (t i : string) p l (c : list Element) :
  pointerDownKeys (mkElement t i p l c) =
  omap (fun p => match p with
                 | (_, HandlePointerDown keyCode) => Some keyCode
                 | _ => None
                 end) l ++ pointerDownKeysList c.
Proof.
  simpl. f_equal. unfold pointerDownKeysList.
  induction c as [|x r IH]; simpl; [done | by rewrite IH].
Qed.

Lemma pointerDownKeys_appendChild (child e : Element) :
  pointerDownKeys (appendChild child e) = pointerDownKeys e ++ pointerDownKeys child.
Proof.
  destruct e as [t i p l c]. unfold appendChild. rewrite !pointerDownKeys_unfold.
  unfold pointerDownKeysList. rewrite map_app, concat_app. simpl.
  by rewrite app_nil_r, app_assoc.
Qed.

Lemma cleanupWired_unfold (t i : string) p l (c : list Element) :
  cleanupWired (mkElement t i p l c) = cleansUp l && forallb cleanupWired c.
Proof. reflexivity. Qed.

Lemma cleanupWired_appendChild (child e : Element) :
  cleanupWired (appendChild child e) = cleanupWired e && cleanupWired child.
Proof.
  destruct e as [t i p l c]. unfold appendChild. rewrite !cleanupWired_unfold.
  rewrite forallb_app. simpl. rewrite andb_true_r. by rewrite andb_assoc.
Qed.

(** X10.  Mounting both clusters on a document that has neither adds
    eighteen elements after what the body holds (two containers, eight
    buttons, eight images) and nothing else.  The eight [pointerdown]
    listeners are bound, in document order, to the key codes up, left,
    right, down, then Y, X, B (cancel), A (action); and every element that
    listens for [pointerdown] also has the release handler on [pointerup],
    [pointercancel] and [lostpointercapture]. *)
Theorem mount_wires_buttons (kc : KeyCodes.t) (b : Element) :
  getElementById DPAD_ID b = None -> getElementById ABXY_ID b = None ->
  let b' := mountABXY kc (mountDPad kc b) in
  b' = appendChild (appendButtons (abxyButtons kc) (createContainer ABXY_ID "right"))
         (appendChild (appendButtons (dpadButtons kc) (createContainer DPAD_ID "left")) b) /\
  countNodes b' = (countNodes b + 18)%nat /\
  pointerDownKeys b' =
    pointerDownKeys b ++
    [ KeyCodes.up kc; KeyCodes.left kc; KeyCodes.right kc; KeyCodes.down kc;
      KeyCodes.buttonY kc; KeyCodes.buttonX kc; KeyCodes.cancel kc; KeyCodes.action kc ] /\
  cleanupWired b' = cleanupWired b.
Proof.
  intros Hd Ha b'.
  assert (b' = appendChild (appendButtons (abxyButtons kc) (createContainer ABXY_ID "right"))
         (appendChild (appendButtons (dpadButtons kc) (createContainer DPAD_ID "left")) b)) as ->.
  { subst b'. unfold mountDPad at 1. rewrite Hd. unfold mountABXY.
    assert (countId ABXY_ID (mountDPad kc b) = 0%nat) as Hc.
    { destruct (mountDPad_countId kc b) as [_ ->]. by apply getElementById_None. }
    unfold mountDPad in Hc. rewrite Hd in Hc. apply getElementById_None in Hc.
    by rewrite Hc. }
  split; [done|].
  rewrite !countNodes_appendChild, !pointerDownKeys_appendChild, !cleanupWired_appendChild.
  destruct (dpad_cluster_counts kc) as (_ & _ & ->).
  destruct (abxy_cluster_counts kc) as (_ & _ & ->).
  split; [lia|]. split.
  - rewrite <- app_assoc. reflexivity.
  - simpl. by rewrite !andb_true_r.
Qed.

Lemma mount_wires_buttons_witness :
  let kc := KeyCodes.mk (num 87) (num 83) (num 65) (num 68) (num 13) (num 27) (num 13) (num 27) in
  let b := appendChild (createElement "canvas") (createElement "body") in
  getElementById DPAD_ID b = None /\ getElementById ABXY_ID b = None /\
  countNodes (mountABXY kc (mountDPad kc b)) = 20%nat /\
  pointerDownKeys (mountABXY kc (mountDPad kc b)) =
    [num 87; num 65; num 68; num 83; num 27; num 13; num 27; num 13].
Proof.
  set (kc := KeyCodes.mk (num 87) (num 83) (num 65) (num 68) (num 13) (num 27) (num 13) (num 27)).
  set (b := appendChild (createElement "canvas") (createElement "body")).
  split; [reflexivity|]. split; [reflexivity|]. split.
  - exact (proj1 (proj2 (mount_wires_buttons kc b eq_refl eq_refl))).
  - exact (proj1 (proj2 (proj2 (mount_wires_buttons kc b eq_refl eq_refl)))).
Defined.

(** ** The "Toggle Gamepad View" command *)

(** X11.  The toggle command flips [showGamepad] to a boolean.  Turning the
    view off changes nothing else: the clusters stay in the document and
    the document keeps its listeners.  Turning it on mounts the clusters
    that are missing and adds one more document listener.  So two toggles
    in a row, from either setting, leave the document as one activation
    makes it, with one listener more than before. *)
Theorem toggle_keeps_clusters (kc : KeyCodes.t) (pg : Page) :
  let pg1 := toggleGamepadView kc pg in
  let pg2 := toggleGamepadView kc pg1 in
  let mounted := mountABXY kc (mountDPad kc (documentBody pg)) in
  showGamepad pg1 = JBool (negb (ToBoolean (showGamepad pg))) /\
  (ToBoolean (showGamepad pg) = true ->
   documentBody pg1 = documentBody pg /\ documentListeners pg1 = documentListeners pg) /\
  (ToBoolean (showGamepad pg) = false ->
   documentBody pg1 = mounted /\ documentListeners pg1 = S (documentListeners pg)) /\
  (countId DPAD_ID (documentBody pg) <= countId DPAD_ID (documentBody pg1))%nat /\
  (countId ABXY_ID (documentBody pg) <= countId ABXY_ID (documentBody pg1))%nat /\
  pg2 = mkPage mounted (S (documentListeners pg)) (JBool (ToBoolean (showGamepad pg))).
Proof.
  intros pg1 pg2 mounted. subst pg1 pg2 mounted.
  destruct (mountDPad_countId kc (documentBody pg)) as [Hd1 Hd2].
  destruct (mountABXY_countId kc (mountDPad kc (documentBody pg))) as [Ha1 Ha2].
  unfold toggleGamepadView, activateMobileControls, installGlobalPointerListener.
  destruct (ToBoolean (showGamepad pg)) eqn:Hs; simpl.
  - repeat split; try done; lia.
  - repeat split; try done; try lia.
Qed.

(** ** The key code table *)

Lemma fallbackKeyCode_not_nullish (binding : option Keyboard) (hard : Z) :
  isNullish (fallbackKeyCode binding hard) = false.
Proof.
  unfold fallbackKeyCode. destruct binding as [[[[|[|v r1] r2]|]]|]; try reflexivity.
  by destruct v.
Qed.

Lemma resolveKeyCode_result (h : Host) (name : string) (fallback : JsValue) :
  exists v, resolveKeyCode h name fallback = Normal v /\
            (isFiniteNumber v = true \/ v = fallback).
Proof.
  rewrite resolveKeyCode_cases. eexists. split; [reflexivity|].
  destruct (getParameter h pluginName name) as [value|e]; [|by right].
  destruct (isFinite (Number value)) eqn:Hf; [by left | by right].
Qed.

(** X12.  The [KEY_CODES] table is always built, and each of its eight
    entries is a finite number or the fallback of its control; no entry is
    [undefined] or [null]; and when the host's bindings are finite numbers,
    or absent, every entry is a finite number. *)
Theorem KEY_CODES_entries (h : Host) :
  exists kc,
    KEY_CODES h = Normal kc /\
    Forall2 (fun v fallback => isFiniteNumber v = true \/ v = fallback)
            (keyCodeList kc) (fallbackList h) /\
    Forall (fun v => isNullish v = false) (keyCodeList kc) /\
    (Forall (fun fallback => isFiniteNumber fallback = true) (fallbackList h) ->
     Forall (fun v => isFiniteNumber v = true) (keyCodeList kc)).
Proof.
  unfold KEY_CODES, fallbackList.
  destruct (resolveKeyCode_result h "MoveUpKeyCode" (fallbackKeyCode (controls h "UpHero") 87))
    as (v1 & -> & H1).
  destruct (resolveKeyCode_result h "MoveDownKeyCode" (fallbackKeyCode (controls h "DownHero") 83))
    as (v2 & -> & H2).
  destruct (resolveKeyCode_result h "MoveLeftKeyCode" (fallbackKeyCode (controls h "LeftHero") 65))
    as (v3 & -> & H3).
  destruct (resolveKeyCode_result h "MoveRightKeyCode" (fallbackKeyCode (controls h "RightHero") 68))
    as (v4 & -> & H4).
  destruct (resolveKeyCode_result h "ActionKeyCode" (fallbackKeyCode (menuControls h "Action") 13))
    as (v5 & -> & H5).
  destruct (resolveKeyCode_result h "CancelKeyCode" (fallbackKeyCode (menuControls h "Cancel") 27))
    as (v6 & -> & H6).
  destruct (resolveKeyCode_result h "ButtonXKeyCode" (fallbackKeyCode (menuControls h "ButtonX") 13))
    as (v7 & -> & H7).
  destruct (resolveKeyCode_result h "ButtonYKeyCode" (fallbackKeyCode (menuControls h "ButtonY") 27))
    as (v8 & -> & H8).
  eexists. split; [reflexivity|]. unfold keyCodeList. simpl.
  assert (forall v b hard, isFiniteNumber v = true \/ v = fallbackKeyCode b hard ->
                           isNullish v = false) as Hnn.
  { intros v b hard [Hf| ->]; [by destruct v | apply fallbackKeyCode_not_nullish]. }
  split; [repeat (constructor; [assumption|]); constructor|].
  split; [repeat (constructor; [by eapply Hnn|]); constructor|].
  intros Hall. repeat (apply Forall_cons in Hall as [? Hall]).
  repeat (constructor;
          [match goal with
           | H : isFiniteNumber ?v = true \/ ?v = _ |- isFiniteNumber ?v = true =>
               destruct H as [H| ->]; done
           end|]).
  constructor.
Qed.

Lemma toggle_keeps_clusters_witness :
  let kc := KeyCodes.mk (num 87) (num 83) (num 65) (num 68) (num 13) (num 27) (num 13) (num 27) in
  let pg := activateMobileControls kc (mkPage (createElement "body") 0 (JBool true)) in
  ToBoolean (showGamepad pg) = true /\
  documentBody (toggleGamepadView kc pg) = documentBody pg /\
  documentListeners (toggleGamepadView kc pg) = 1%nat /\
  countId DPAD_ID (documentBody (toggleGamepadView kc pg)) = 1%nat /\
  documentListeners (toggleGamepadView kc (toggleGamepadView kc pg)) = 2%nat.
Proof.
  set (kc := KeyCodes.mk (num 87) (num 83) (num 65) (num 68) (num 13) (num 27) (num 13) (num 27)).
  set (pg := activateMobileControls kc (mkPage (createElement "body") 0 (JBool true))).
  destruct (toggle_keeps_clusters kc pg) as (_ & Hoff & _ & _ & _ & Htwice).
  destruct (Hoff eq_refl) as [Hb Hl].
  split; [reflexivity|]. split; [exact Hb|]. split; [exact Hl|].
  split; [vm_compute; reflexivity|]. exact (f_equal documentListeners Htwice).
Defined.

Lemma KEY_CODES_entries_witness :
  Forall (fun fallback => isFiniteNumber fallback = true) (fallbackList sampleHost) /\
  exists kc, KEY_CODES sampleHost = Normal kc /\
             Forall (fun v => isFiniteNumber v = true) (keyCodeList kc) /\
             keyCodeList kc = [num 38; num 0; num 0; num 0; num 13; num 27; num 13; num 27].
Proof.
  assert (Forall (fun fallback => isFiniteNumber fallback = true) (fallbackList sampleHost))
    as Hall by (repeat constructor).
  split; [exact Hall|].
  destruct (KEY_CODES_entries sampleHost) as (kc & Hk & _ & _ & Hf).
  exists kc. split; [exact Hk|]. split; [exact (Hf Hall)|].
  assert (Normal kc = KEY_CODES sampleHost) as Heq by (by rewrite Hk).
  vm_compute in Heq. injection Heq as ->. reflexivity.
Defined.

(** ** Cancelling and re-arming *)

(** X13.  In every state the module can be in, [clearRepeat k] removes the
    timers of [k], all of them and no other, together with [k]'s entry, and
    touches nothing else. *)
Theorem clearRepeat_removes_exactly (k : Z) (s : State) :
  Good s ->
  timers (clearRepeat k s) = filter (fun p => callbackKey (t_cb p.2) <> k) (timers s) /\
  activeRepeats (clearRepeat k s) = delete k (activeRepeats s) /\
  keysPressed (clearRepeat k s) = keysPressed s /\
  hostLog (clearRepeat k s) = hostLog s /\
  pointerToKey (clearRepeat k s) = pointerToKey s.
Proof.
  intros [HI HL].
  destruct (clearRepeat_frame k s) as (_ & _ & Hkp & Hlg & _ & _ & Hpk).
  split; [|by rewrite clearRepeat_activeRepeats].
  apply map_eq. intros id. apply option_eq. intros t.
  rewrite map_lookup_filter_Some. simpl. split.
  - intros Ht. split; [by apply clearRepeat_timers_Some in Ht as [? _]|].
    by apply (proj1 (timersFor_empty k (clearRepeat k s)) (clearRepeat_timersFor k s HI) id).
  - intros [Ht Hk]. by apply clearRepeat_keeps_other.
Qed.

Lemma clearRepeat_removes_exactly_witness :
  let s := run [Press 87; Press 65; Elapse 180; Fire 1] (initial true false []) in
  Good s /\
  timers (clearRepeat 87 s) = {[ 2 := mkTimer Timeout 180 180 (DelayElapsed 65) ]} /\
  timers (clearRepeat 87 s) = filter (fun p => callbackKey (t_cb p.2) <> 87) (timers s).
Proof.
  set (s := run [Press 87; Press 65; Elapse 180; Fire 1] (initial true false [])).
  assert (Good s) as HG by (apply run_Good, initial_Good, NoDup_nil; exact I).
  split; [exact HG|]. split; [vm_compute; reflexivity|].
  exact (proj1 (clearRepeat_removes_exactly 87 s HG)).
Defined.

(** X14.  Pressing a key again while it is repeating starts over: with the
    delay elapsed and the interval armed, a further [pressKey k] removes the
    interval and arms a fresh 180 ms delay timer, which is then the key's
    only timer; the key stays pressed once and the host is told one more
    repeat, not a new press. *)
Theorem repress_while_repeating (k dt dt' : Z) (s : State) :
  Inv s -> isReady s = true -> REPEAT_DELAY <= dt ->
  let d := nextTimer s in
  let s3 := run [Press k; Elapse dt; Fire d; Elapse dt'] s in
  let s4 := pressKey k s3 in
  activeRepeats s3 !! k = Some (mkRepeat None (Some (d + 1))) /\
  is_Some (timers s3 !! (d + 1)) /\
  timers s4 !! (d + 1) = None /\
  activeRepeats s4 !! k = Some (mkRepeat (Some (d + 2)) None) /\
  timersFor k s4 =
    {[ d + 2 := mkTimer Timeout 180 (now s + Z.max 0 dt + Z.max 0 dt' + 180) (DelayElapsed k) ]} /\
  callsSince s3 s4 = [onKeyPressedAndRepeat k] /\
  keysPressed s4 = keysPressed s3.
Proof.
  intros HI Hr Hdt d s3 s4.
  assert (Inv s3) as HI3 by (by apply run_Inv).
  unfold REPEAT_DELAY in Hdt.
  assert (isReady s3 = true /\ (k ∈ keysPressed s3) /\
          activeRepeats s3 !! k = Some (mkRepeat None (Some (d + 1))) /\
          is_Some (timers s3 !! (d + 1)) /\
          nextTimer s3 = d + 2 /\
          now s3 = now s + Z.max 0 dt + Z.max 0 dt') as (Hr3 & Hk3 & Ha3 & Hi3 & Hn3 & Hnow3).
  { subst s3 d. simpl. rewrite (pressKey_ready k s Hr). unfold fireTimer. simpl.
    rewrite lookup_insert_eq. simpl. unfold REPEAT_DELAY.
    destruct (Z.leb_spec (now s + 180) (now s + Z.max 0 dt)) as [_|Hlt]; [|lia].
    simpl. repeat split; try done.
    - destruct (includes (keysPressed s) k) eqn:Hin; [by apply includes_elem_of|].
      apply elem_of_app. right. by apply list_elem_of_singleton.
    - apply lookup_insert_eq.
    - rewrite lookup_insert_eq. by eexists.
    - lia. }
  clearbody s3.
  pose proof (pressKey_ready_timersFor k s3 HI3 Hr3) as Hf. fold s4 in Hf.
  rewrite Hn3, Hnow3 in Hf.
  split; [done|]. split; [done|]. subst s4.
  rewrite (pressKey_ready k s3 Hr3) in Hf |- *. unfold callsSince. simpl.
  apply includes_elem_of in Hk3. rewrite Hk3, Hn3. simpl.
  rewrite drop_app_length. repeat split; try done.
  - rewrite lookup_insert_ne by lia.
    apply eq_None_not_Some. intros [t [_ Hrt]%clearRepeat_timers_Some].
    destruct (Hrt _ Ha3) as [_ Hi]. by simpl in Hi.
  - apply lookup_insert_eq.
  - rewrite Hk3, Hn3 in Hf. exact Hf.
Qed.

Lemma repress_while_repeating_witness :
  Inv (initial true false []) /\ isReady (initial true false []) = true /\ REPEAT_DELAY <= 180 /\
  timers (pressKey 13 (run [Press 13; Elapse 180; Fire 1; Elapse 30] (initial true false []))) !! 2
    = None /\
  callsSince (run [Press 13; Elapse 180; Fire 1; Elapse 30] (initial true false []))
    (pressKey 13 (run [Press 13; Elapse 180; Fire 1; Elapse 30] (initial true false [])))
    = [onKeyPressedAndRepeat 13].
Proof.
  assert (Inv (initial true false [])) as HI by (apply initial_Inv, NoDup_nil; exact I).
  assert (REPEAT_DELAY <= 180) as Hd by (unfold REPEAT_DELAY; lia).
  destruct (repress_while_repeating 13 180 30 (initial true false []) HI eq_refl Hd)
    as (_ & _ & H3 & _ & _ & H6 & _).
  split; [exact HI|]. split; [reflexivity|]. split; [exact Hd|]. split; [exact H3 | exact H6].
Defined.

(** X15.  A pointer the module does not track is ignored: its [pointerup],
    wherever it lands and however many document listeners run, its
    [pointercancel] and its [lostpointercapture] leave the state as it is;
    in particular a second end of the same gesture does nothing. *)
Theorem untracked_pointer_ignored (p : Z) (onButton : bool) (listeners : nat) (s : State) :
  pointerToKey s !! p = None ->
  dispatchPointerUp onButton listeners p s = s /\
  step (PointerCancel p) s = s /\
  step (LostPointerCapture p) s = s.
Proof.
  intros Hp.
  assert (handlePointerUp p s = s) as Hh by (unfold handlePointerUp; by rewrite Hp).
  split; [|by split].
  unfold dispatchPointerUp. rewrite Hh. destruct onButton;
    (induction listeners as [|n IH]; simpl; [done|]; rewrite IH;
     unfold documentPointerUp; by rewrite Hp).
Qed.

Lemma untracked_pointer_ignored_witness :
  let s := dispatchPointerUp true 1 7 (handlePointerDown 13 7 (initial true false [])) in
  pointerToKey s !! 7 = None /\
  dispatchPointerUp false 3 7 s = s /\ step (LostPointerCapture 7) s = s.
Proof.
  set (s := dispatchPointerUp true 1 7 (handlePointerDown 13 7 (initial true false []))).
  assert (pointerToKey s !! 7 = None) as Hp by (vm_compute; reflexivity).
  destruct (untracked_pointer_ignored 7 false 3 s Hp) as (H1 & _ & H3).
  split; [exact Hp|]. split; [exact H1 | exact H3].
Defined.
